(** * fastapi_banco: the ledger of the asynchronous banking API

    A shallow embedding of [models.py], [schemas.py] and the request
    handlers of [main.py] (criar_usuario, criar_conta, criar_transacao,
    extrato).

    - Python [float] is IEEE binary64, embedded as Rocq's primitive
      [float]; comparisons and additions are the hardware ones, NaN and
      the infinities included.
    - Integer columns and ids are [Z]; strings are [string], compared byte
      for byte.
    - The tables are SQLite's. A REAL column has no NaN: a NaN written to
      [accounts.balance], which is nullable, is stored as NULL and read
      back as [None], on which Python's [>] and [+=] raise TypeError; a
      NaN written to [transactions.amount], which is NOT NULL, makes the
      flush fail with IntegrityError. An integer outside 64 bits cannot
      be bound to a statement: sqlite3 raises OverflowError.
    - A handler runs inside one SQLAlchemy session: it reads and writes
      the session's view of the tables and [commit] publishes that view.
      Rows get their primary key when they are flushed; a handler only
      reads a key after the commit that flushes the row, so the key is
      computed when the row is added. [session.refresh] re-reads a row
      that was just committed and is the identity here.
    - A commit can be refused by the storage engine, in which case the
      handler dies with the engine's exception and the work since the
      last successful commit is discarded when the session closes.
    - [raise HTTPException(...)] is the error branch of the handler monad.
    - [current_user] is the user id [get_current_user] extracted from the
      bearer token; the handlers receive it as an argument. *)

From Stdlib Require Import ZArith List String Bool Lia.
From Stdlib Require Import Floats.
From Stdlib Require DecimalString DecimalZ.
Import ListNotations.

Open Scope string_scope.
Open Scope list_scope.
Open Scope Z_scope.

(** ** models.py *)

Module Usuario.
Record t := mk { id : Z; username : string; password : string }.
End Usuario.

Module Account.
Record t := mk { id : Z; user_id : Z; balance : option float }.
End Account.

Module Transaction.
Record t := mk
  { id : Z; account_id : Z; amount : float; type : string; timestamp : Z }.
End Transaction.

(** ** schemas.py (request bodies) *)

Module UsuarioCreate.
Record t := mk { username : string; password : string }.
End UsuarioCreate.

Module TransactionCreate.
Record t := mk { account_id : Z; amount : float; type : string }.
End TransactionCreate.

(** ** The three tables *)

Record DB := mkDB
  { users : list Usuario.t;
    accounts : list Account.t;
    transactions : list Transaction.t }.

Definition empty_db : DB := mkDB [] [] [].

(** ** Exceptions *)

(** fastapi's HTTPException; what the storage raises: OperationalError
    when the engine refuses a commit, IntegrityError when a constraint
    fails; and the builtin errors. *)
Inductive Exception :=
| HTTPException (status_code : Z) (detail : string)
| OperationalError
| IntegrityError
| OverflowError
| TypeError
| ValueError.

(** ** The session and the handler monad *)

(** What a request finds around it: the server clock read by
    [datetime.now(timezone.utc)]; for each commit the handler will issue,
    whether the storage engine accepts it ([true]) or refuses it
    ([false]), commits beyond the list being accepted; and the salt the
    password hasher draws. *)
Record Env := mkEnv { utcnow : Z; storage : list bool; salt : string }.

Record Session := mkSession
  { committed : DB;      (* what every other session sees *)
    pending : DB;        (* this session's view, with its unflushed work *)
    clock : Z;
    engine : list bool;
    entropy : string }.

(** The session with its view of the tables replaced. *)
Definition stage (s : Session) (db : DB) : Session :=
  mkSession (committed s) db (clock s) (engine s) (entropy s).

Definition M (A : Type) : Type := Session -> (Exception + A) * Session.

Definition ret {A} (a : A) : M A := fun s => (inr a, s).

Definition bind {A B} (m : M A) (k : A -> M B) : M B :=
  fun s => match m s with
           | (inr a, s') => k a s'
           | (inl e, s') => (inl e, s')
           end.

Definition raise {A} (e : Exception) : M A := fun s => (inl e, s).

Declare Scope handler_scope.
Delimit Scope handler_scope with handler.
Notation "x <- m ;; k" := (bind m (fun x => k))
  (at level 61, m at next level, right associativity) : handler_scope.
Notation "m ;; k" := (bind m (fun _ => k))
  (at level 61, right associativity) : handler_scope.
Open Scope handler_scope.

(** [if cond: raise e] *)
Definition when_raise (cond : bool) (e : Exception) : M unit :=
  if cond then raise e else ret tt.

(** Reads go to the session's view. *)
Definition query {A} (f : DB -> A) : M A := fun s => (inr (f (pending s)), s).

Definition datetime_now : M Z := fun s => (inr (clock s), s).

(** Integer primary keys are assigned by the engine: one more than the
    largest key of the table, 1 in an empty table (SQLite's rowid rule). *)
Definition next_id (ids : list Z) : Z := 1 + fold_right Z.max 0 ids.

(** The integers sqlite3 can bind to a statement. *)
Definition in_int64 (n : Z) : bool := (- 2 ^ 63 <=? n) && (n <? 2 ^ 63).

(** What a REAL column keeps of a float: NaN becomes NULL. *)
Definition stored (x : float) : option float :=
  if is_nan x then None else Some x.

Definition add_usuario (username password : string) : M Usuario.t :=
  fun s =>
    let db := pending s in
    let u := Usuario.mk (next_id (map Usuario.id (users db))) username password in
    (inr u, stage s (mkDB (users db ++ [u]) (accounts db) (transactions db))).

Definition add_account (user_id : Z) (balance : option float) : M Account.t :=
  fun s =>
    let db := pending s in
    let a := Account.mk (next_id (map Account.id (accounts db))) user_id balance in
    (inr a, stage s (mkDB (users db) (accounts db ++ [a]) (transactions db))).

Definition add_transaction (account_id : Z) (amount : float) (type : string)
    (timestamp : Z) : M Transaction.t :=
  fun s =>
    let db := pending s in
    let t := Transaction.mk (next_id (map Transaction.id (transactions db)))
               account_id amount type timestamp in
    (inr t, stage s (mkDB (users db) (accounts db) (transactions db ++ [t]))).

(** [conta.balance = b] on a loaded row: flushed as
    UPDATE accounts SET balance = b WHERE id = conta.id, [b] being what
    the column keeps of the float assigned. *)
Definition set_balance (conta : Account.t) (b : option float) (a : Account.t) : Account.t :=
  if Account.id a =? Account.id conta
  then Account.mk (Account.id a) (Account.user_id a) b
  else a.

Definition update_balance (conta : Account.t) (b : option float) : M unit :=
  fun s =>
    let db := pending s in
    (inr tt,
     stage s (mkDB (users db) (map (set_balance conta b) (accounts db))
                (transactions db))).

(** [await session.commit()] when the flush binds [params], integers the
    caller supplied, and writes [amounts] to NOT NULL REAL columns. An
    integer outside 64 bits stops the flush before the engine is asked
    anything; a NaN amount fails its constraint once the engine has let the
    writes in. Either way the session's work is discarded. *)
Definition flush_commit (params : list Z) (amounts : list float) : M unit :=
  fun s =>
    if negb (forallb in_int64 params)
    then (inl OverflowError,
          mkSession (committed s) (committed s) (clock s) (engine s) (entropy s))
    else
      match engine s with
      | false :: rest =>
          (inl OperationalError,
           mkSession (committed s) (committed s) (clock s) rest (entropy s))
      | ok =>
          if existsb is_nan amounts
          then (inl IntegrityError,
                mkSession (committed s) (committed s) (clock s) (tl ok) (entropy s))
          else (inr tt, mkSession (pending s) (pending s) (clock s) (tl ok) (entropy s))
      end.

(** [await session.commit()] of a flush that binds strings and keys the
    engine assigned, and writes no float but 0.0: only the engine can
    refuse it. *)
Definition commit : M unit := flush_commit [] [].

(** Python's [a > b] and [b + x] when [b] was read from a nullable REAL
    column: [None] is not comparable and cannot be added to. *)
Definition py_gt (a : float) (b : option float) : M bool :=
  match b with
  | Some b => ret (b <? a)%float
  | None => raise TypeError
  end.

Definition py_iadd (b : option float) (x : float) : M float :=
  match b with
  | Some b => ret (b + x)%float
  | None => raise TypeError
  end.

(** The password holds a NUL byte. *)
Fixpoint has_nul (s : string) : bool :=
  match s with
  | EmptyString => false
  | String c s => Ascii.eqb c Ascii.zero || has_nul s
  end.

(** [async with async_session() as session: ...]: the handler's answer and
    the tables as they are once the session is closed. *)
Definition run {A} (h : M A) (db : DB) (env : Env) : (Exception + A) * DB :=
  let '(r, s) := h (mkSession db db (utcnow env) (storage env) (salt env)) in
  (r, committed s).

(** ** main.py *)

Section Handlers.

(** [pwd_context.hash] of passlib, not part of the ledger: any function
    from the salt it draws and the raw password to the stored hash. *)
Variable pwd_context_hash : string -> string -> string.

(** auth.py. passlib's bcrypt refuses a password that holds a NUL byte
    (PasswordValueError, a ValueError). *)
Definition hash_password (password : string) : M string :=
  fun s =>
    if has_nul password then (inl ValueError, s)
    else (inr (pwd_context_hash (entropy s) password), s).

Definition criar_usuario (usuario : UsuarioCreate.t) : M Usuario.t :=
  existing <- query (fun db =>
    find (fun u => String.eqb (Usuario.username u) (UsuarioCreate.username usuario))
         (users db)) ;;
  when_raise (match existing with Some _ => true | None => false end)
    (HTTPException 400 "Usuário já existe") ;;
  hashed <- hash_password (UsuarioCreate.password usuario) ;;
  novo_usuario <- add_usuario (UsuarioCreate.username usuario) hashed ;;
  commit ;;
  conta <- add_account (Usuario.id novo_usuario) (Some 0%float) ;;
  commit ;;
  ret novo_usuario.

End Handlers.

(** The flush binds [current_user], which the caller's token supplied. (In
    [criar_usuario] the integer bound is the key the engine gave the user
    row, and fits.) *)
Definition criar_conta (current_user : Z) : M Account.t :=
  nova_conta <- add_account current_user (Some 0%float) ;;
  flush_commit [current_user] [] ;;
  ret nova_conta.

Definition criar_transacao (transacao : TransactionCreate.t) (current_user : Z)
    : M Transaction.t :=
  conta <- query (fun db =>
    find (fun a => Account.id a =? TransactionCreate.account_id transacao)
         (accounts db)) ;;
  match conta with
  | None =>
    (* The SELECT binds [account_id]. A stored key fits 64 bits, so an id
       outside them is the id of no row, and what the caller gets is the
       error of the bind. *)
    when_raise (negb (in_int64 (TransactionCreate.account_id transacao)))
      OverflowError ;;
    raise (HTTPException 403 "Não autorizado")
  | Some conta =>
    when_raise (negb (Account.user_id conta =? current_user))
      (HTTPException 403 "Não autorizado") ;;
    when_raise (TransactionCreate.amount transacao <=? 0)%float
      (HTTPException 400 "O valor deve ser positivo") ;;
    when_raise (negb (existsb (String.eqb (TransactionCreate.type transacao))
                              ["deposit"; "withdrawal"]))
      (HTTPException 400 "Tipo de transação inválido") ;;
    insufficient <-
      (if String.eqb (TransactionCreate.type transacao) "withdrawal"
       then py_gt (TransactionCreate.amount transacao) (Account.balance conta)
       else ret false) ;;
    when_raise insufficient (HTTPException 400 "Saldo insuficiente") ;;
    balance <- py_iadd (Account.balance conta)
                 (if String.eqb (TransactionCreate.type transacao) "deposit"
                  then TransactionCreate.amount transacao
                  else - TransactionCreate.amount transacao)%float ;;
    update_balance conta (stored balance) ;;
    agora <- datetime_now ;;
    nova_transacao <- add_transaction (Account.id conta)
                        (TransactionCreate.amount transacao)
                        (TransactionCreate.type transacao) agora ;;
    flush_commit [] [TransactionCreate.amount transacao] ;;
    ret nova_transacao
  end.

Definition extrato (user_id current_user : Z) : M (list Transaction.t) :=
  when_raise (negb (user_id =? current_user))
    (HTTPException 403 "Não autorizado") ;;
  account_ids <- query (fun db =>
    map Account.id (filter (fun a => Account.user_id a =? user_id) (accounts db))) ;;
  (* The SELECT binds [user_id]. A stored owner fits 64 bits, so an id
     outside them owns no row, and what the caller gets is the error of
     the bind. *)
  when_raise (match account_ids with [] => negb (in_int64 user_id) | _ => false end)
    OverflowError ;;
  when_raise (match account_ids with [] => true | _ => false end)
    (HTTPException 404 "Nenhuma conta encontrada") ;;
  query (fun db =>
    filter (fun t => existsb (Z.eqb (Transaction.account_id t)) account_ids)
           (transactions db)).

(** ** auth.py, [login] and [get_current_user] *)

(** The Python values a token payload holds. *)
Inductive PyValue :=
| PyNone
| PyBool (b : bool)
| PyInt (n : Z)
| PyFloat (x : float)
| PyStr (s : string)
| PyDatetime (t : Z)
| PyContainer.

(** A dict with string keys, in insertion order. *)
Definition dict : Type := list (string * PyValue).

(** [d.get(key)] *)
Definition dict_get (d : dict) (key : string) : PyValue :=
  match find (fun kv => String.eqb (fst kv) key) d with
  | Some kv => snd kv
  | None => PyNone
  end.

(** [d.update({key: v})] *)
Fixpoint dict_update (d : dict) (key : string) (v : PyValue) : dict :=
  match d with
  | [] => [(key, v)]
  | (k, x) :: d =>
      if String.eqb k key then (k, v) :: d else (k, x) :: dict_update d key v
  end.

(** What can be raised inside the authentication code: an [Exception]
    (fastapi's HTTPException, the errors of the builtin [int]) and the two
    errors of jose the code names. *)
Inductive PyException :=
| Raised (e : Exception)
| ExpiredSignatureError
| JWTError.

(** [str(n)] of an int: its decimal digits, with "-" when negative. *)
Definition str (n : Z) : string :=
  DecimalString.NilZero.string_of_int (Z.to_int n).

(** [int(x)] of a float: truncation toward zero; NaN and the infinities
    are errors. *)
Definition int_of_float (x : float) : PyException + Z :=
  match Prim2SF x with
  | S754_zero _ => inr 0
  | S754_finite s m e =>
      inr (cond_Zopp s (if 0 <=? e then Zpos m * 2 ^ e else Zpos m / 2 ^ (- e)))
  | S754_infinity _ => inl (Raised OverflowError)
  | S754_nan => inl (Raised ValueError)
  end.

(** Times are counted in microseconds, the resolution of datetime. *)
Definition timedelta_minutes (minutes : Z) : Z := minutes * 60000000.

Definition ALGORITHM : string := "HS256".
Definition ACCESS_TOKEN_EXPIRE_MINUTES : Z := 30.

(** The answer of [login]. *)
Record TokenResponse := mkTokenResponse { access_token : string; token_type : string }.

Section Auth.

(** The process environment and the libraries auth.py delegates to:
    [os.getenv], jose's [jwt.encode] and [jwt.decode] (the latter reads the
    clock to check the expiry), passlib's [pwd_context.verify], and the
    builtin [int] on a str ([None] when it raises ValueError). *)
Variable getenv : string -> option string.
Variable jwt_encode : dict -> string -> string -> string.
Variable jwt_decode : string -> string -> list string -> Z -> PyException + dict.
Variable pwd_context_verify : string -> string -> bool.
Variable int_of_str : string -> option Z.

Definition SECRET_KEY : string :=
  match getenv "SECRET_KEY" with
  | Some key => key
  | None => "chave_dev_insegura"
  end.

(** The builtin [int]. *)
Definition py_int (v : PyValue) : PyException + Z :=
  match v with
  | PyNone => inl (Raised TypeError)
  | PyBool b => inr (if b then 1 else 0)
  | PyInt n => inr n
  | PyFloat x => int_of_float x
  | PyStr s =>
      match int_of_str s with Some n => inr n | None => inl (Raised ValueError) end
  | PyDatetime _ => inl (Raised TypeError)
  | PyContainer => inl (Raised TypeError)
  end.

Definition verify_password (plain_password hashed_password : string) : bool :=
  pwd_context_verify plain_password hashed_password.

(** [expires_delta or timedelta(minutes=30)]: an absent delta and a delta
    of zero are both falsy. *)
Definition create_access_token (data : dict) (expires_delta : option Z) : M string :=
  agora <- datetime_now ;;
  let delta :=
    match expires_delta with
    | Some d => if d =? 0 then timedelta_minutes ACCESS_TOKEN_EXPIRE_MINUTES else d
    | None => timedelta_minutes ACCESS_TOKEN_EXPIRE_MINUTES
    end in
  ret (jwt_encode (dict_update data "exp" (PyDatetime (agora + delta)))
         SECRET_KEY ALGORITHM).

(** The [except] clauses are tried in order; [ExpiredSignatureError] is a
    [JWTError], so [JWTError] below is any other one. What is not caught
    propagates. *)
Definition decode_access_token (agora : Z) (token : string) : PyException + dict :=
  match jwt_decode token SECRET_KEY [ALGORITHM] agora with
  | inr payload => inr payload
  | inl ExpiredSignatureError => inl (Raised (HTTPException 401 "Token expirado"))
  | inl JWTError => inl (Raised (HTTPException 401 "Token inválido"))
  | inl e => inl e
  end.

(** The body of the [try] of [get_current_user]. *)
Definition current_user_of (agora : Z) (token : string) : PyException + Z :=
  match decode_access_token agora token with
  | inl e => inl e
  | inr payload =>
      match py_int (dict_get payload "sub") with
      | inl e => inl e
      | inr user_id =>
          if user_id =? 0
          then inl (Raised (HTTPException 401 "Token inválido"))
          else inr user_id
      end
  end.

(** [except Exception] catches whatever the body raised, the
    HTTPExceptions included. *)
Definition get_current_user (token : string) : M Z :=
  agora <- datetime_now ;;
  match current_user_of agora token with
  | inr user_id => ret user_id
  | inl _ => raise (HTTPException 401 "Token inválido ou expirado")
  end.

Definition login (username password : string) : M TokenResponse :=
  usuario <- query (fun db =>
    find (fun u => String.eqb (Usuario.username u) username) (users db)) ;;
  match usuario with
  | None => raise (HTTPException 401 "Usuário ou senha inválidos")
  | Some usuario =>
    when_raise (negb (verify_password password (Usuario.password usuario)))
      (HTTPException 401 "Usuário ou senha inválidos") ;;
    token <- create_access_token [("sub", PyStr (str (Usuario.id usuario)))] None ;;
    ret (mkTokenResponse token "bearer")
  end.

End Auth.

(** * The failures of main.py, by the names the specification gives them *)

Definition DuplicateUsername := HTTPException 400 "Usuário já existe".
Definition Unauthorized := HTTPException 403 "Não autorizado".
Definition InvalidAmount := HTTPException 400 "O valor deve ser positivo".
Definition InvalidTransactionType := HTTPException 400 "Tipo de transação inválido".
Definition InsufficientFunds := HTTPException 400 "Saldo insuficiente".
Definition NoAccountsFound := HTTPException 404 "Nenhuma conta encontrada".

(** The specification's [AccountNotFound], to compare the code with: it is
    raised nowhere in main.py. The specification lists it as a failure
    distinct from [Unauthorized] and answers missing resources with
    status 404. *)
Definition AccountNotFound (e : Exception) : Prop :=
  exists detail, e = HTTPException 404 detail.

(** * Reading the tables *)

(** [select(Account).where(Account.id == X)] followed by [.first()] *)
Definition lookup_account (db : DB) (X : Z) : option Account.t :=
  find (fun a => Account.id a =? X) (accounts db).

(** The rows of the transactions table that reference account [X], in
    insertion order. *)
Definition ledger (db : DB) (X : Z) : list Transaction.t :=
  filter (fun t => Transaction.account_id t =? X) (transactions db).

(** What a request adds to the balance: line 149 of main.py. *)
Definition posted_amount (type : string) (amount : float) : float :=
  if String.eqb type "deposit" then amount else (- amount)%float.

(** The cached running total: every recorded amount added to 0.0 in the
    order of recording, rounded to binary64 at each step. *)
Definition running_total (txs : list Transaction.t) : float :=
  fold_left
    (fun b t => (b + posted_amount (Transaction.type t) (Transaction.amount t))%float)
    txs 0%float.

(** The specification's formula, in binary64: the sum of the deposits
    minus the sum of the withdrawals. *)
Definition sum_of (kind : string) (txs : list Transaction.t) : float :=
  fold_left
    (fun s t => if String.eqb (Transaction.type t) kind
                then (s + Transaction.amount t)%float else s)
    txs 0%float.

Definition deposits_minus_withdrawals (txs : list Transaction.t) : float :=
  (sum_of "deposit" txs - sum_of "withdrawal" txs)%float.

(** The value of a float that holds an integer, and the exact signed sum
    of the amounts of a ledger whose amounts are integers. *)
Definition integer_value (x : float) : option Z :=
  match Prim2SF x with
  | S754_zero _ => Some 0
  | S754_finite s m e =>
      if 0 <=? e then Some (cond_Zopp s (Zpos m * 2 ^ e))
      else if Zpos m mod 2 ^ (- e) =? 0 then Some (cond_Zopp s (Zpos m / 2 ^ (- e)))
      else None
  | _ => None
  end.

Fixpoint exact_total (txs : list Transaction.t) : option Z :=
  match txs with
  | [] => Some 0
  | t :: txs =>
      match integer_value (Transaction.amount t), exact_total txs with
      | Some v, Some rest =>
          Some ((if String.eqb (Transaction.type t) "deposit" then v else - v) + rest)
      | _, _ => None
      end
  end.

(** The row [criar_transacao] inserts and the tables it commits. *)
Definition nova_transacao (db : DB) (t : TransactionCreate.t) (conta : Account.t)
    (env : Env) : Transaction.t :=
  Transaction.mk (next_id (map Transaction.id (transactions db)))
    (Account.id conta) (TransactionCreate.amount t) (TransactionCreate.type t)
    (utcnow env).

(** What the balance column holds after the posting: the sum, or NULL
    when the sum is not a number. *)
Definition balance_after (conta : Account.t) (t : TransactionCreate.t) : option float :=
  match Account.balance conta with
  | Some b =>
      stored (b + posted_amount (TransactionCreate.type t) (TransactionCreate.amount t))
  | None => None
  end.

Definition posted (db : DB) (t : TransactionCreate.t) (conta : Account.t)
    (env : Env) : DB :=
  mkDB (users db)
    (map (set_balance conta (balance_after conta t)) (accounts db))
    (transactions db ++ [nova_transacao db t conta env]).

(** The storage engine accepts the first commit of the request. *)
Definition commit_accepted (env : Env) : bool :=
  match storage env with false :: _ => false | _ => true end.

(** Every user owns at least one account, and every account has its user. *)
Definition has_account (db : DB) (u : Usuario.t) : bool :=
  existsb (fun a => Account.user_id a =? Usuario.id u) (accounts db).

Definition has_owner (db : DB) (a : Account.t) : bool :=
  existsb (fun u => Usuario.id u =? Account.user_id a) (users db).

Definition paired (db : DB) : bool :=
  forallb (has_account db) (users db) && forallb (has_owner db) (accounts db).

(** A sequence of PostTransaction requests, each with its caller and its
    environment, served one after the other. *)
Record Request := mkRequest
  { body : TransactionCreate.t; caller : Z; environment : Env }.

Definition serve (db : DB) (r : Request) : (Exception + Transaction.t) * DB :=
  run (criar_transacao (body r) (caller r)) db (environment r).

(** The answer to each request and the tables it leaves, in order. *)
Fixpoint history (db : DB) (rs : list Request)
    : list ((Exception + Transaction.t) * DB) :=
  match rs with
  | [] => []
  | r :: rs => serve db r :: history (snd (serve db r)) rs
  end.

Definition succeeded {A} (answer : Exception + A) : bool :=
  match answer with inr _ => true | inl _ => false end.

(** Account [X] as [criar_conta] and [criar_usuario] leave it: its row
    has balance 0.0 and the ledger has nothing for it. *)
Definition just_opened (db : DB) (X : Z) : Prop :=
  (exists a, lookup_account db X = Some a /\ Account.balance a = Some 0%float)
  /\ ledger db X = [].

(** The balance column of [X] holds the running total of its ledger, NULL
    standing for a total that is not a number, and a balance it holds does
    not compare below zero. *)
Definition consistent (db : DB) (X : Z) : Prop :=
  exists a,
    lookup_account db X = Some a /\
    Account.balance a = stored (running_total (ledger db X)) /\
    forall b, Account.balance a = Some b -> (b <? 0)%float = false.

(** Every transaction row references an account row (the foreign key). *)
Definition referenced (db : DB) : Prop :=
  forall t, In t (transactions db) ->
            In (Transaction.account_id t) (map Account.id (accounts db)).

(** ** The service as a whole *)

(** One request to the service, by the names the specification gives the
    operations. *)
Inductive Call :=
| RegisterUser (usuario : UsuarioCreate.t)
| OpenAccount (current_user : Z)
| PostTransaction (transacao : TransactionCreate.t) (current_user : Z)
| GetStatement (user_id current_user : Z).

(** The tables a request leaves behind. *)
Definition handle (pwd_context_hash : string -> string -> string) (db : DB)
    (c : Call * Env) : DB :=
  match fst c with
  | RegisterUser usuario => snd (run (criar_usuario pwd_context_hash usuario) db (snd c))
  | OpenAccount u => snd (run (criar_conta u) db (snd c))
  | PostTransaction t u => snd (run (criar_transacao t u) db (snd c))
  | GetStatement user_id u => snd (run (extrato user_id u) db (snd c))
  end.

(** The states the service can be in: those some sequence of requests
    leads to from empty tables. *)
Definition reachable (pwd_context_hash : string -> string -> string) (db : DB) : Prop :=
  exists calls, fold_left (handle pwd_context_hash) calls empty_db = db.

(** Every account is consistent with its ledger and every transaction
    references an account. *)
Definition sound (db : DB) : Prop :=
  referenced db /\
  forall X, In X (map Account.id (accounts db)) -> consistent db X.

(** * Worked states *)

(** alice (user 1) holds account 1 with 100.0 after one deposit. *)
Definition db_alice : DB :=
  mkDB [Usuario.mk 1 "alice" "$2b$12$N9qo8uLOickgx2ZMRZoMyes3nha"]
       [Account.mk 1 1 (Some 100%float)]
       [Transaction.mk 1 1 100%float "deposit" 1700000000].

(** bob (user 2) joins with account 2. *)
Definition db_alice_bob : DB :=
  mkDB [Usuario.mk 1 "alice" "$2b$12$N9qo8uLOickgx2ZMRZoMyes3nha";
        Usuario.mk 2 "bob" "$2b$12$N9qo8uLOickgx2ZMRZoMyehunter2"]
       [Account.mk 1 1 (Some 100%float); Account.mk 2 2 (Some 0%float)]
       [Transaction.mk 1 1 100%float "deposit" 1700000000].

Definition env_ok : Env := mkEnv 1700000600 [] "N9qo8uLOickgx2ZMRZoMye".

(** A stand-in for bcrypt: the salt followed by the password. *)
Definition toy_hash (salt password : string) : string :=
  ("$2b$12$" ++ salt ++ password)%string.

(** alice (user 1) right after registration: account 1, balance 0.0. *)
Definition db_opened : DB :=
  mkDB [Usuario.mk 1 "alice" "$2b$12$N9qo8uLOickgx2ZMRZoMyes3nha"]
       [Account.mk 1 1 (Some 0%float)] [].

(** alice's account 1 after a deposit and a withdrawal of infinity: the
    balance, infinity minus infinity, is not a number and the column holds
    NULL. *)
Definition db_alice_null : DB :=
  mkDB [Usuario.mk 1 "alice" "$2b$12$N9qo8uLOickgx2ZMRZoMyes3nha"]
       [Account.mk 1 1 None]
       [Transaction.mk 1 1 infinity "deposit" 1700000600;
        Transaction.mk 2 1 infinity "withdrawal" 1700000600].

Definition request (account_id : Z) (amount : float) (type : string) (caller : Z)
    : Request :=
  mkRequest (TransactionCreate.mk account_id amount type) caller env_ok.

Definition statement_example : list Request :=
  [request 1 100%float "deposit" 1;
   request 1 150%float "withdrawal" 1;
   request 1 40%float "withdrawal" 1].

Definition rounding_example : list Request :=
  [request 1 1e16%float "deposit" 1;
   request 1 1%float "withdrawal" 1;
   request 1 1%float "withdrawal" 1].

(** The example of the specification as requests to the service. *)
Definition statement_calls : list (Call * Env) :=
  [(RegisterUser (UsuarioCreate.mk "alice" "s3nha"), env_ok);
   (PostTransaction (TransactionCreate.mk 1 100%float "deposit") 1, env_ok);
   (PostTransaction (TransactionCreate.mk 1 150%float "withdrawal") 1, env_ok);
   (PostTransaction (TransactionCreate.mk 1 40%float "withdrawal") 1, env_ok)].

(** alice registers, bob registers, and someone tries "alice" again. *)
Definition two_registrations : list (Call * Env) :=
  [(RegisterUser (UsuarioCreate.mk "alice" "s3nha"), env_ok);
   (RegisterUser (UsuarioCreate.mk "bob" "hunter2"), env_ok);
   (RegisterUser (UsuarioCreate.mk "alice" "outra"), env_ok)].

(** What [extrato] answers user [u] when it answers: the rows of the
    ledger whose account id is among the ids of the accounts of [u]. *)
Definition statement_of (db : DB) (u : Z) : list Transaction.t :=
  filter (fun t => existsb (Z.eqb (Transaction.account_id t))
                     (map Account.id
                        (filter (fun a => Account.user_id a =? u) (accounts db))))
         (transactions db).

(** Stand-ins for the libraries, to run the authentication on: no
    environment variable is set; a token is the "sub" of its payload, and
    decodes unless it is empty or the word "expired"; a password verifies
    against its [toy_hash] under the salt of [env_ok]; [int] reads plain
    decimal digits. *)
Definition toy_getenv (name : string) : option string := None.

Definition toy_jwt_encode (payload : dict) (key algorithm : string) : string :=
  match dict_get payload "sub" with
  | PyStr s => s
  | _ => ""
  end.

Definition toy_jwt_decode (token key : string) (algorithms : list string) (agora : Z)
    : PyException + dict :=
  if String.eqb token "" then inl JWTError
  else if String.eqb token "expired" then inl ExpiredSignatureError
  else inr [("sub", PyStr token)].

Definition toy_verify (plain_password hashed_password : string) : bool :=
  String.eqb hashed_password (toy_hash "N9qo8uLOickgx2ZMRZoMye" plain_password).

Definition toy_int_of_str (s : string) : option Z :=
  option_map Z.of_int (DecimalString.NilZero.int_of_string s).

(** * What the tables hold *)

(** A row of the ledger as [criar_transacao] lets it in: a kind it knows
    and an amount that did not compare at or below zero. *)
Definition valid_transaction (t : Transaction.t) : Prop :=
  (Transaction.type t = "deposit" \/ Transaction.type t = "withdrawal") /\
  (Transaction.amount t <=? 0)%float = false.

(** The transaction is on an account of user [u]. *)
Definition on_account_of (db : DB) (u : Z) (t : Transaction.t) : Prop :=
  exists a, In a (accounts db) /\ Account.user_id a = u /\
            Account.id a = Transaction.account_id t.

(** The key and the owner of an account row. *)
Definition identity (a : Account.t) : Z * Z := (Account.id a, Account.user_id a).

(** The storage engine accepts every commit of the request. *)
Definition fault_free (env : Env) : bool := forallb (fun ok => ok) (storage env).

(** What one accepted commit does to the tables. A registration is two
    such steps, the other writing requests are one, a refused or reading
    request is none. *)
Inductive commit_step (db : DB) : DB -> Prop :=
| step_user (username password : string) :
    find (fun u => String.eqb (Usuario.username u) username) (users db) = None ->
    commit_step db
      (mkDB (users db ++ [Usuario.mk (next_id (map Usuario.id (users db))) username password])
            (accounts db) (transactions db))
| step_account (user_id : Z) :
    commit_step db
      (mkDB (users db)
            (accounts db ++
             [Account.mk (next_id (map Account.id (accounts db))) user_id (Some 0%float)])
            (transactions db))
| step_transaction (t : TransactionCreate.t) (conta : Account.t) (env : Env) :
    lookup_account db (TransactionCreate.account_id t) = Some conta ->
    (TransactionCreate.amount t <=? 0)%float = false ->
    TransactionCreate.type t = "deposit" \/ TransactionCreate.type t = "withdrawal" ->
    commit_step db (posted db t conta env).

Inductive commit_steps (db : DB) : DB -> Prop :=
| steps_none : commit_steps db db
| steps_more (mid db' : DB) :
    commit_steps db mid -> commit_step mid db' -> commit_steps db db'.

(** The tables [db'] hold everything [db] held: the same users and
    transactions with more after them, the same accounts under the same
    keys and owners with more after them. *)
Definition extends (db db' : DB) : Prop :=
  exists us acs txs,
    users db' = users db ++ us /\
    map identity (accounts db') = map identity (accounts db) ++ acs /\
    transactions db' = transactions db ++ txs.

(** * Binary64 facts used by the ledger *)

Module Binary64.

Lemma digits2_pos_bounds (m : positive) :
  2 ^ (Zpos (digits2_pos m) - 1) <= Zpos m < 2 ^ Zpos (digits2_pos m).
Proof.
  induction m as [p IH | p IH | ]; cbn [digits2_pos].
  - rewrite Pos2Z.inj_succ, Z.pow_succ_r by lia.
    replace (Z.succ (Zpos (digits2_pos p)) - 1) with (Z.succ (Zpos (digits2_pos p) - 1)) by lia.
    rewrite Z.pow_succ_r by lia. lia.
  - rewrite Pos2Z.inj_succ, Z.pow_succ_r by lia.
    replace (Z.succ (Zpos (digits2_pos p)) - 1) with (Z.succ (Zpos (digits2_pos p) - 1)) by lia.
    rewrite Z.pow_succ_r by lia. lia.
  - cbn. lia.
Qed.

Lemma iter_xO (d m : positive) : Zpos (Pos.iter xO m d) = Zpos m * 2 ^ Zpos d.
Proof.
  revert m. induction d as [| d IH] using Pos.peano_ind; intros m.
  - cbn. lia.
  - rewrite Pos.iter_succ, Pos2Z.inj_xO, IH, Pos2Z.inj_succ, Z.pow_succ_r by lia. lia.
Qed.

(** A canonical mantissa has at most 53 bits, and exactly 53 above the
    smallest exponent. *)
Lemma canonical_lt (m : positive) (e : Z) :
  canonical_mantissa prec emax m e = true -> Zpos m < 2 ^ 53 /\ -1074 <= e.
Proof.
  unfold canonical_mantissa, fexp, SpecFloat.emin, prec, emax. intros H.
  apply Z.eqb_eq in H.
  pose proof (digits2_pos_bounds m) as [_ Hm].
  split; [| lia].
  assert (Zpos (digits2_pos m) <= 53) by lia.
  eapply Z.lt_le_trans; [exact Hm |].
  apply Z.pow_le_mono_r; lia.
Qed.

Lemma canonical_ge (m : positive) (e : Z) :
  canonical_mantissa prec emax m e = true -> -1074 < e -> 2 ^ 52 <= Zpos m.
Proof.
  unfold canonical_mantissa, fexp, SpecFloat.emin, prec, emax. intros H He.
  apply Z.eqb_eq in H.
  pose proof (digits2_pos_bounds m) as [Hm _].
  assert (Zpos (digits2_pos m) = 53) as E by lia.
  rewrite E in Hm. exact Hm.
Qed.

Lemma binary_round_aux_sign (mx ex : Z) (lx : location) :
  SFltb (binary_round_aux prec emax false mx ex lx) (S754_zero false) = false.
Proof.
  unfold binary_round_aux.
  destruct (shr_fexp prec emax mx ex lx) as [mrs' e'].
  destruct (shr_fexp prec emax _ e' loc_Exact) as [mrs'' e''].
  destruct (shr_m mrs''); [reflexivity | | reflexivity].
  destruct (e'' <=? emax - prec); reflexivity.
Qed.

Lemma binary_normalize_sign (m e : Z) :
  0 <= m -> SFltb (binary_normalize prec emax m e false) (S754_zero false) = false.
Proof.
  intros Hm. destruct m as [| p | p]; [reflexivity | | lia].
  unfold binary_normalize, binary_round.
  destruct (shl_align p e _) as [mz ez]. apply binary_round_aux_sign.
Qed.

(** On canonical positive operands the comparison of [SFcompare] is the
    comparison of the values, read on the mantissas aligned by [SFadd]. *)
Lemma aligned_le (mb ma : positive) (eb ea : Z) :
  bounded prec emax mb eb = true ->
  bounded prec emax ma ea = true ->
  SFltb (S754_finite false mb eb) (S754_finite false ma ea) = false ->
  Zpos (fst (shl_align ma ea (Z.min eb ea))) <= Zpos (fst (shl_align mb eb (Z.min eb ea))).
Proof.
  unfold bounded. intros Hb Ha Hlt.
  apply andb_prop in Hb as [Hb _]. apply andb_prop in Ha as [Ha _].
  unfold SFltb, SFcompare in Hlt.
  destruct (Z.compare_spec eb ea) as [E | E | E].
  - subst ea. rewrite Z.min_id. unfold shl_align. rewrite Z.sub_diag. cbn [fst].
    change (Pos.compare_cont Eq mb ma) with (Pos.compare mb ma) in Hlt.
    destruct (Pos.compare_spec mb ma); [lia | discriminate | lia].
  - discriminate.
  - rewrite Z.min_r by lia. unfold shl_align. rewrite Z.sub_diag. cbn [fst].
    destruct (ea - eb) as [| d | d] eqn:Ed; try lia.
    cbn [fst]. rewrite iter_xO.
    apply canonical_lt in Ha as [Ha Hea].
    apply canonical_ge in Hb; [| lia].
    assert (2 ^ 1 <= 2 ^ Zpos d) by (apply Z.pow_le_mono_r; lia).
    change (2 ^ 53) with (2 ^ 52 * 2 ^ 1) in Ha.
    nia.
Qed.

Lemma Prim2SF_zero : Prim2SF 0 = S754_zero false.
Proof. reflexivity. Qed.

Local Open Scope float_scope.

(** Case analysis on the classes and signs of two floats; the cases
    decided by the class alone are closed. *)
Ltac by_class x y :=
  destruct (Prim2SF x) as [? | ? | | ? ? ?];
  destruct (Prim2SF y) as [? | ? | | ? ? ?];
  repeat match goal with s : bool |- _ => destruct s end;
  try discriminate; try reflexivity.

(** [not (b < 0)] and [not (a <= 0)] give [not (b + a < 0)]:
    a deposit cannot make the balance negative. *)
Lemma add_not_negative (b a : float) :
  (b <? 0) = false -> (a <=? 0) = false -> (b + a <? 0) = false.
Proof.
  rewrite !ltb_spec, leb_spec, add_spec, Prim2SF_zero.
  unfold SF64add. by_class b a.
  intros _ _. unfold SFadd. apply binary_normalize_sign. cbn [cond_Zopp]. lia.
Qed.

(** [not (b < 0)], [not (a <= 0)] and [not (a > b)] give
    [not (b + (-a) < 0)]: an accepted withdrawal cannot make the balance
    negative. *)
Lemma sub_not_negative (b a : float) :
  (b <? 0) = false -> (a <=? 0) = false -> (b <? a) = false ->
  (b + - a <? 0) = false.
Proof.
  rewrite !ltb_spec, leb_spec, add_spec, opp_spec, Prim2SF_zero.
  unfold SF64add.
  pose proof (Prim2SF_valid b) as Vb. pose proof (Prim2SF_valid a) as Va.
  by_class b a.
  intros _ _ Hlt. cbn [SFopp negb]. unfold SFadd. apply binary_normalize_sign.
  cbn [cond_Zopp]. cbn [valid_binary] in Vb, Va.
  pose proof (aligned_le _ _ _ _ Vb Va Hlt). lia.
Qed.

(** [0 < a] excludes [a <= 0]. *)
Lemma pos_not_le_zero (a : float) : (0 <? a) = true -> (a <=? 0) = false.
Proof.
  rewrite ltb_spec, leb_spec, Prim2SF_zero.
  destruct (Prim2SF a) as [[|] | [|] | | [|] m e]; try discriminate; reflexivity.
Qed.

(** [a <= b] excludes [b < a]. *)
Lemma le_not_gt (a b : float) : (a <=? b) = true -> (b <? a) = false.
Proof.
  rewrite ltb_spec, leb_spec. unfold SFleb, SFltb, SFcompare.
  by_class a b.
  all: match goal with
       | |- context [Z.compare ?ea ?eb] =>
           rewrite (Z.compare_antisym ea eb); destruct (Z.compare ea eb)
       end;
       cbn [CompOpp]; try discriminate; try reflexivity.
  all: match goal with
       | |- context [Pos.compare_cont Eq ?mb ?ma] =>
           change (Pos.compare_cont Eq mb ma) with (Pos.compare mb ma);
           change (Pos.compare_cont Eq ma mb) with (Pos.compare ma mb);
           rewrite (Pos.compare_antisym ma mb); destruct (Pos.compare ma mb)
       end;
       cbn [CompOpp]; try discriminate; reflexivity.
Qed.

(** Adding the opposite is subtracting. *)
Lemma sub_add_opp (b a : float) : (b + - a = b - a)%float.
Proof.
  apply Prim2SF_inj. rewrite add_spec, sub_spec, opp_spec.
  unfold SF64add, SF64sub.
  destruct (Prim2SF b) as [[|] | [|] | | [|] mb eb];
    destruct (Prim2SF a) as [[|] | [|] | | [|] ma ea]; reflexivity.
Qed.

(** Adding to 0.0 an amount that does not compare at or below zero gives
    the amount itself. *)
Lemma zero_add (a : float) : (a <=? 0) = false -> 0 + a = a.
Proof.
  intros Ha. apply Prim2SF_inj. revert Ha.
  rewrite leb_spec, add_spec, Prim2SF_zero. unfold SF64add.
  destruct (Prim2SF a) as [[|] | [|] | | [|] m e]; try discriminate; reflexivity.
Qed.

Lemma Prim2SF_infinity : Prim2SF infinity = S754_infinity false.
Proof. reflexivity. Qed.

(** A finite amount above zero is not above itself, and taking it from
    itself leaves 0.0. *)
Lemma sub_self (a : float) :
  (a <=? 0) = false -> (a <? infinity) = true -> (a <? a) = false /\ a + - a = 0.
Proof.
  intros Hpos Hfin. split.
  - revert Hpos Hfin. rewrite leb_spec, !ltb_spec, Prim2SF_zero, Prim2SF_infinity.
    unfold SFltb, SFcompare.
    destruct (Prim2SF a) as [[|] | [|] | | [|] m e]; try discriminate; try reflexivity.
    intros _ _. rewrite Z.compare_refl.
    change (Pos.compare_cont Eq m m) with (Pos.compare m m).
    rewrite Pos.compare_refl. reflexivity.
  - apply Prim2SF_inj. revert Hpos Hfin.
    rewrite leb_spec, ltb_spec, add_spec, opp_spec, Prim2SF_zero, Prim2SF_infinity.
    unfold SF64add.
    destruct (Prim2SF a) as [[|] | [|] | | [|] m e]; try discriminate.
    intros _ _. cbn [SFopp negb]. unfold SFadd. cbn [cond_Zopp].
    rewrite Z.add_opp_diag_r. reflexivity.
Qed.

(** ** Numbers and NaN *)

Lemma SFcompare_refl (x : spec_float) : x <> S754_nan -> SFcompare x x = Some Eq.
Proof.
  destruct x as [[|] | [|] | | [|] m e]; intros H; try reflexivity; try (destruct H; reflexivity);
    cbn; rewrite Z.compare_refl;
    change (Pos.compare_cont Eq m m) with (Pos.compare m m);
    rewrite Pos.compare_refl; reflexivity.
Qed.

Lemma is_nan_spec (x : float) : is_nan x = true <-> Prim2SF x = S754_nan.
Proof.
  unfold is_nan. rewrite eqb_spec. unfold SFeqb. split.
  - destruct (Prim2SF x) eqn:E; try reflexivity;
      rewrite SFcompare_refl by discriminate; discriminate.
  - intros ->. reflexivity.
Qed.

(** A float above zero is a number. *)
Lemma pos_is_number (a : float) : (0 <? a) = true -> is_nan a = false.
Proof.
  intros Hpos. destruct (is_nan a) eqn:E; [| reflexivity].
  apply is_nan_spec in E. rewrite ltb_spec, E in Hpos. discriminate Hpos.
Qed.

(** A float below another is a number. *)
Lemma lt_is_number (a c : float) : (a <? c) = true -> is_nan a = false.
Proof.
  intros Hlt. destruct (is_nan a) eqn:E; [| reflexivity].
  apply is_nan_spec in E. rewrite ltb_spec, E in Hlt. discriminate Hlt.
Qed.

(** A number that does not compare at or below zero is above zero. *)
Lemma number_not_le_zero (a : float) :
  (a <=? 0) = false -> is_nan a = false -> (0 <? a) = true.
Proof.
  intros Hle Hnum.
  assert (Prim2SF a <> S754_nan) as Hn.
  { intros E. apply is_nan_spec in E. congruence. }
  revert Hle Hn. rewrite leb_spec, ltb_spec, Prim2SF_zero.
  destruct (Prim2SF a) as [[|] | [|] | | [|] m e]; try discriminate; try reflexivity.
  intros _ H. destruct H. reflexivity.
Qed.

End Binary64.

(** What the column keeps is the float, unless it keeps nothing. *)
Lemma stored_Some (x b : float) : stored x = Some b -> x = b.
Proof. unfold stored. destruct (is_nan x); [discriminate | congruence]. Qed.

Lemma stored_number (x : float) : is_nan x = false -> stored x = Some x.
Proof. unfold stored. intros ->. reflexivity. Qed.

(** * The handlers as equations *)

Lemma criar_transacao_run (t : TransactionCreate.t) (u : Z) (db : DB) (env : Env) :
  run (criar_transacao t u) db env =
  match lookup_account db (TransactionCreate.account_id t) with
  | None =>
    if in_int64 (TransactionCreate.account_id t) then (inl Unauthorized, db)
    else (inl OverflowError, db)
  | Some conta =>
    if negb (Account.user_id conta =? u) then (inl Unauthorized, db)
    else if (TransactionCreate.amount t <=? 0)%float then (inl InvalidAmount, db)
    else if negb (existsb (String.eqb (TransactionCreate.type t)) ["deposit"; "withdrawal"])
      then (inl InvalidTransactionType, db)
    else
      match Account.balance conta with
      | None => (inl TypeError, db)
      | Some b =>
        if String.eqb (TransactionCreate.type t) "withdrawal"
           && (b <? TransactionCreate.amount t)%float
          then (inl InsufficientFunds, db)
        else if commit_accepted env
          then if is_nan (TransactionCreate.amount t) then (inl IntegrityError, db)
               else (inr (nova_transacao db t conta env), posted db t conta env)
        else (inl OperationalError, db)
      end
  end.
Proof.
  unfold run, criar_transacao, lookup_account, bind, query, when_raise, raise, ret.
  cbn [pending committed clock engine entropy].
  destruct (find _ (accounts db)) as [conta |];
    [| destruct (in_int64 _); reflexivity].
  destruct (negb (Account.user_id conta =? u)); [reflexivity |].
  destruct (TransactionCreate.amount t <=? 0)%float; [reflexivity |].
  cbn [existsb].
  unfold posted, balance_after, posted_amount, py_gt, py_iadd, raise, ret.
  destruct (String.eqb (TransactionCreate.type t) "deposit") eqn:Hd;
    destruct (String.eqb (TransactionCreate.type t) "withdrawal") eqn:Hw;
    cbn [orb negb andb]; try reflexivity;
    (destruct (Account.balance conta) as [b |]; [| reflexivity]);
    try (destruct (b <? TransactionCreate.amount t)%float; [reflexivity |]);
    unfold update_balance, datetime_now, add_transaction, flush_commit,
      commit_accepted, stage;
    cbn [pending committed clock engine entropy users accounts transactions
         forallb negb existsb orb];
    rewrite ?Bool.orb_false_r;
    (destruct (storage env) as [| [|] rest]; [| | reflexivity]);
    (destruct (is_nan (TransactionCreate.amount t)); reflexivity).
Qed.

Lemma criar_conta_run (u : Z) (db : DB) (env : Env) :
  run (criar_conta u) db env =
  let a := Account.mk (next_id (map Account.id (accounts db))) u (Some 0%float) in
  if negb (in_int64 u) then (inl OverflowError, db)
  else if commit_accepted env
  then (inr a, mkDB (users db) (accounts db ++ [a]) (transactions db))
  else (inl OperationalError, db).
Proof.
  unfold run, criar_conta, bind, add_account, flush_commit, commit_accepted, ret, stage.
  cbn [pending committed clock engine entropy users accounts transactions
       forallb existsb andb].
  rewrite Bool.andb_true_r.
  destruct (in_int64 u); [| reflexivity]. cbn [negb].
  destruct (storage env) as [| [|] rest]; reflexivity.
Qed.

Lemma extrato_run (user_id u : Z) (db : DB) (env : Env) :
  run (extrato user_id u) db env =
  if negb (user_id =? u) then (inl Unauthorized, db)
  else
    let account_ids :=
      map Account.id (filter (fun a => Account.user_id a =? user_id) (accounts db)) in
    match account_ids with
    | [] => if in_int64 user_id then (inl NoAccountsFound, db) else (inl OverflowError, db)
    | _ => (inr (filter (fun t => existsb (Z.eqb (Transaction.account_id t)) account_ids)
                        (transactions db)), db)
    end.
Proof.
  unfold run, extrato, bind, query, when_raise, raise, ret.
  cbn [pending committed clock engine entropy].
  destruct (negb (user_id =? u)); [reflexivity |].
  cbn zeta.
  destruct (map Account.id _); [| reflexivity].
  destruct (in_int64 user_id); reflexivity.
Qed.

Lemma criar_usuario_run (pwd_context_hash : string -> string -> string)
    (usuario : UsuarioCreate.t) (db : DB) (env : Env) :
  run (criar_usuario pwd_context_hash usuario) db env =
  match find (fun u => String.eqb (Usuario.username u) (UsuarioCreate.username usuario))
             (users db) with
  | Some _ => (inl DuplicateUsername, db)
  | None =>
    if has_nul (UsuarioCreate.password usuario) then (inl ValueError, db)
    else
    let u := Usuario.mk (next_id (map Usuario.id (users db)))
               (UsuarioCreate.username usuario)
               (pwd_context_hash (salt env) (UsuarioCreate.password usuario)) in
    let a := Account.mk (next_id (map Account.id (accounts db))) (Usuario.id u)
               (Some 0%float) in
    match storage env with
    | false :: _ => (inl OperationalError, db)
    | true :: false :: _ =>
        (inl OperationalError, mkDB (users db ++ [u]) (accounts db) (transactions db))
    | _ => (inr u, mkDB (users db ++ [u]) (accounts db ++ [a]) (transactions db))
    end
  end.
Proof.
  unfold run, criar_usuario, bind, query, when_raise, raise, ret.
  cbn [pending committed clock engine entropy].
  destruct (find _ (users db)) as [existing |]; [reflexivity |].
  unfold hash_password, add_usuario, add_account, commit, stage.
  cbn [pending committed clock engine entropy users accounts transactions].
  destruct (has_nul _); [reflexivity |].
  cbn [pending committed clock engine entropy users accounts transactions].
  destruct (storage env) as [| [|] [| [|] rest]]; reflexivity.
Qed.

(** ** Rows found and rows updated *)

Lemma find_In_true {A} (f : A -> bool) (l : list A) (x : A) :
  In x l -> f x = true -> exists y, find f l = Some y.
Proof.
  induction l as [| a l IH]; cbn; [contradiction |].
  intros [-> | Hin] Hf.
  - rewrite Hf. eauto.
  - destruct (f a); eauto.
Qed.

Lemma lookup_account_id (db : DB) (X : Z) (a : Account.t) :
  lookup_account db X = Some a -> Account.id a = X.
Proof.
  unfold lookup_account. intros H. apply find_some in H as [_ H]. lia.
Qed.

(** The bind comes before the lookup. On tables whose account keys fit 64
    bits, as the keys the engine assigns do, a request under an account id
    outside 64 bits dies with OverflowError whatever else it holds, and
    nothing is read or written. *)
Lemma criar_transacao_unbound_id (t : TransactionCreate.t) (u : Z) (db : DB) (env : Env) :
  Forall (fun a => in_int64 (Account.id a) = true) (accounts db) ->
  in_int64 (TransactionCreate.account_id t) = false ->
  run (criar_transacao t u) db env = (inl OverflowError, db).
Proof.
  intros Hkeys Hid. rewrite criar_transacao_run, Hid.
  destruct (lookup_account db _) as [conta |] eqn:Hfind; [| reflexivity].
  pose proof (lookup_account_id _ _ _ Hfind) as Hkey.
  unfold lookup_account in Hfind. apply find_some in Hfind as [Hin _].
  rewrite Forall_forall in Hkeys. specialize (Hkeys conta Hin).
  congruence.
Qed.

(** The same for the statement: on tables whose owners fit 64 bits, as
    the owners [criar_conta] and [criar_usuario] can write do, a caller id
    outside 64 bits dies with OverflowError. *)
Lemma extrato_unbound_id (u : Z) (db : DB) (env : Env) :
  Forall (fun a => in_int64 (Account.user_id a) = true) (accounts db) ->
  in_int64 u = false ->
  run (extrato u u) db env = (inl OverflowError, db).
Proof.
  intros Howners Hid. rewrite extrato_run, Z.eqb_refl, Hid. cbn [negb]. cbv zeta.
  destruct (filter _ (accounts db)) as [| a l] eqn:Hfilter; [reflexivity |].
  assert (In a (filter (fun a => Account.user_id a =? u) (accounts db))) as Hin
    by (rewrite Hfilter; left; reflexivity).
  apply filter_In in Hin as [Hin Hown].
  rewrite Forall_forall in Howners. specialize (Howners a Hin).
  apply Z.eqb_eq in Hown. congruence.
Qed.

Lemma set_balance_id (conta : Account.t) (b : option float) (a : Account.t) :
  Account.id (set_balance conta b a) = Account.id a.
Proof. unfold set_balance. destruct (_ =? _); reflexivity. Qed.

(** The UPDATE touches the rows whose key is [conta.id] and no other. *)
Lemma find_set_balance (conta : Account.t) (b : option float) (Y : Z) (l : list Account.t) :
  find (fun a => Account.id a =? Y) (map (set_balance conta b) l) =
  if Y =? Account.id conta
  then option_map (fun a => Account.mk (Account.id a) (Account.user_id a) b)
         (find (fun a => Account.id a =? Y) l)
  else find (fun a => Account.id a =? Y) l.
Proof.
  induction l as [| a l IH]; cbn [map find].
  - destruct (Y =? Account.id conta); reflexivity.
  - rewrite set_balance_id, IH.
    destruct (Account.id a =? Y) eqn:EaY; [| reflexivity].
    unfold set_balance.
    destruct (Account.id a =? Account.id conta) eqn:Eac.
    + replace (Y =? Account.id conta) with true by lia. reflexivity.
    + replace (Y =? Account.id conta) with false by lia. reflexivity.
Qed.

Lemma set_balance_frame (conta : Account.t) (b : option float) (l : list Account.t) :
  Forall2 (fun a a' =>
             Account.id a' = Account.id a /\
             Account.user_id a' = Account.user_id a /\
             (Account.id a <> Account.id conta -> a' = a))
          l (map (set_balance conta b) l).
Proof.
  induction l as [| a l IH]; cbn [map]; constructor; [| exact IH].
  unfold set_balance. destruct (Account.id a =? Account.id conta) eqn:E; cbn.
  - repeat split. intros Hne. lia.
  - repeat split.
Qed.

Lemma existsb_kind (type : string) :
  type = "deposit" \/ type = "withdrawal" ->
  existsb (String.eqb type) ["deposit"; "withdrawal"] = true.
Proof. intros [-> | ->]; reflexivity. Qed.

Lemma next_id_above (ids : list Z) (i : Z) : In i ids -> i < next_id ids.
Proof.
  unfold next_id. induction ids as [| j ids IH]; cbn [fold_right In]; [contradiction |].
  intros [-> | Hin]; [lia |]. specialize (IH Hin). lia.
Qed.

Lemma next_id_fresh (ids : list Z) : ~ In (next_id ids) ids.
Proof. intros Hin. apply next_id_above in Hin. lia. Qed.

(** The outcome of a request that passes the five checks on an account
    whose balance column holds a number. *)
Lemma criar_transacao_accepted (t : TransactionCreate.t) (u : Z) (db : DB) (env : Env)
    (conta : Account.t) (b : float) :
  lookup_account db (TransactionCreate.account_id t) = Some conta ->
  Account.user_id conta = u ->
  (TransactionCreate.amount t <=? 0)%float = false ->
  existsb (String.eqb (TransactionCreate.type t)) ["deposit"; "withdrawal"] = true ->
  Account.balance conta = Some b ->
  String.eqb (TransactionCreate.type t) "withdrawal"
    && (b <? TransactionCreate.amount t)%float = false ->
  run (criar_transacao t u) db env =
  if commit_accepted env
  then if is_nan (TransactionCreate.amount t) then (inl IntegrityError, db)
       else (inr (nova_transacao db t conta env), posted db t conta env)
  else (inl OperationalError, db).
Proof.
  intros Hfind Hown Hamount Hkind Hbalance Hfunds.
  rewrite criar_transacao_run, Hfind, Hown, Z.eqb_refl, Hamount, Hkind, Hbalance, Hfunds.
  reflexivity.
Qed.

(** Whatever the request, it either leaves the tables as they were or
    commits the posting of one accepted transaction. *)
Lemma criar_transacao_cases (t : TransactionCreate.t) (u : Z) (db : DB) (env : Env) :
  (exists e, run (criar_transacao t u) db env = (inl e, db)) \/
  (exists conta b,
     lookup_account db (TransactionCreate.account_id t) = Some conta /\
     Account.user_id conta = u /\
     (TransactionCreate.amount t <=? 0)%float = false /\
     is_nan (TransactionCreate.amount t) = false /\
     Account.balance conta = Some b /\
     (TransactionCreate.type t = "deposit" \/
      TransactionCreate.type t = "withdrawal" /\
      (b <? TransactionCreate.amount t)%float = false) /\
     run (criar_transacao t u) db env =
       (inr (nova_transacao db t conta env), posted db t conta env)).
Proof.
  rewrite criar_transacao_run.
  destruct (lookup_account db _) as [conta |] eqn:Hfind;
    [| left; destruct (in_int64 _); eauto].
  destruct (Account.user_id conta =? u) eqn:Hown; cbn [negb]; [| left; eauto].
  destruct (TransactionCreate.amount t <=? 0)%float eqn:Hamount; [left; eauto |].
  cbn [existsb].
  destruct (String.eqb_spec (TransactionCreate.type t) "deposit") as [Hd | Hd].
  - rewrite Hd. cbn.
    destruct (Account.balance conta) as [b |] eqn:Hbalance; [| left; eauto].
    destruct (commit_accepted env); [| left; eauto].
    destruct (is_nan (TransactionCreate.amount t)) eqn:Hnum; [left; eauto |].
    right. exists conta, b. repeat split; auto. lia.
  - destruct (String.eqb_spec (TransactionCreate.type t) "withdrawal") as [Hw | Hw];
      cbn [orb negb andb]; [| left; eauto].
    destruct (Account.balance conta) as [b |] eqn:Hbalance; [| left; eauto].
    destruct (b <? TransactionCreate.amount t)%float eqn:Hfunds;
      [left; eauto |].
    destruct (commit_accepted env); [| left; eauto].
    destruct (is_nan (TransactionCreate.amount t)) eqn:Hnum; [left; eauto |].
    right. exists conta, b. repeat split; auto. lia.
Qed.

(** No failure of [criar_transacao] is the specification's
    [AccountNotFound]: the handler raises 403 and 400, and what the
    storage and the builtins raise. *)
Lemma criar_transacao_never_404 (t : TransactionCreate.t) (u : Z) (db db' : DB)
    (env : Env) (e : Exception) :
  run (criar_transacao t u) db env = (inl e, db') -> ~ AccountNotFound e.
Proof.
  rewrite criar_transacao_run. intros Hrun [detail ->]. revert Hrun.
  destruct (lookup_account db _) as [conta |];
    [| destruct (in_int64 _); discriminate].
  destruct (negb _); [discriminate |].
  destruct (_ <=? _)%float; [discriminate |].
  destruct (negb _); [discriminate |].
  destruct (Account.balance conta) as [b |]; [| discriminate].
  destruct (_ && _); [discriminate |].
  destruct (commit_accepted env); [| discriminate].
  destruct (is_nan _); discriminate.
Qed.

(** * PostTransaction: the effect of an accepted request *)

(** C2, as the code has it. Take a request that passes the four checks
    made on the request and the account row: the account exists, the caller
    owns it, the amount is above zero, the kind is deposit or withdrawal.
    - When the balance column of the account holds NULL, the request dies
      with TypeError and the tables are as before.
    - When it holds a number and, for a withdrawal, the amount is at most
      that number: if the storage engine refuses the commit the request
      dies with the engine's error and the tables are as before; if it
      accepts the commit, the balance becomes the binary64 sum of balance
      and amount for a deposit and their binary64 difference for a
      withdrawal (NULL when the result is not a number), exactly one row is
      appended to the transactions table carrying the account id, the
      amount, the kind and the server's clock reading under a fresh id,
      and that row is returned. *)
Theorem criar_transacao_effect (t : TransactionCreate.t) (u : Z) (db : DB) (env : Env)
    (conta : Account.t) :
  lookup_account db (TransactionCreate.account_id t) = Some conta ->
  Account.user_id conta = u ->
  (0 <? TransactionCreate.amount t)%float = true ->
  TransactionCreate.type t = "deposit" \/ TransactionCreate.type t = "withdrawal" ->
  (Account.balance conta = None ->
   run (criar_transacao t u) db env = (inl TypeError, db)) /\
  (forall b,
     Account.balance conta = Some b ->
     (TransactionCreate.type t = "withdrawal" ->
      (TransactionCreate.amount t <=? b)%float = true) ->
     (commit_accepted env = false ->
      run (criar_transacao t u) db env = (inl OperationalError, db)) /\
     (commit_accepted env = true ->
      exists tx db',
        run (criar_transacao t u) db env = (inr tx, db') /\
        lookup_account db' (TransactionCreate.account_id t) =
          Some (Account.mk (Account.id conta) (Account.user_id conta)
                  (stored (if String.eqb (TransactionCreate.type t) "deposit"
                           then b + TransactionCreate.amount t
                           else b - TransactionCreate.amount t)%float)) /\
        transactions db' = transactions db ++ [tx] /\
        Transaction.account_id tx = TransactionCreate.account_id t /\
        Transaction.amount tx = TransactionCreate.amount t /\
        Transaction.type tx = TransactionCreate.type t /\
        Transaction.timestamp tx = utcnow env /\
        ~ In (Transaction.id tx) (map Transaction.id (transactions db)))).
Proof.
  intros Hfind Hown Hpos Hkind. split.
  - intros Hnull.
    rewrite criar_transacao_run, Hfind, Hown, Z.eqb_refl.
    rewrite (Binary64.pos_not_le_zero _ Hpos), (existsb_kind _ Hkind), Hnull.
    reflexivity.
  - intros b Hbalance Hfunds.
    assert (run (criar_transacao t u) db env =
            if commit_accepted env
            then (inr (nova_transacao db t conta env), posted db t conta env)
            else (inl OperationalError, db)) as Hrun.
    { rewrite (criar_transacao_accepted t u db env conta b Hfind Hown).
      - rewrite (Binary64.pos_is_number _ Hpos). reflexivity.
      - apply Binary64.pos_not_le_zero, Hpos.
      - apply existsb_kind, Hkind.
      - exact Hbalance.
      - destruct (String.eqb_spec (TransactionCreate.type t) "withdrawal") as [Hw | Hw];
          [| reflexivity].
        cbn [andb]. apply Binary64.le_not_gt, Hfunds, Hw. }
    split; intros Hcommit; rewrite Hcommit in Hrun; [exact Hrun |].
    exists (nova_transacao db t conta env), (posted db t conta env).
    split; [exact Hrun |].
    pose proof (lookup_account_id _ _ _ Hfind) as Hid.
    repeat split; try (cbn; congruence).
    + unfold lookup_account, posted. cbn [accounts].
      rewrite find_set_balance.
      replace (TransactionCreate.account_id t =? Account.id conta) with true by lia.
      fold (lookup_account db (TransactionCreate.account_id t)). rewrite Hfind.
      cbn [option_map]. unfold balance_after, posted_amount. rewrite Hbalance.
      destruct (String.eqb (TransactionCreate.type t) "deposit");
        [reflexivity | rewrite Binary64.sub_add_opp; reflexivity].
    + apply next_id_fresh.
Qed.

Lemma criar_transacao_effect_witness :
  run (criar_transacao (TransactionCreate.mk 1 10%float "deposit") 1) db_alice_null env_ok
  = (inl TypeError, db_alice_null) /\
  run (criar_transacao (TransactionCreate.mk 1 40%float "withdrawal") 1)
      db_alice (mkEnv 1700000600 [false] "")
  = (inl OperationalError, db_alice) /\
  exists tx db',
    run (criar_transacao (TransactionCreate.mk 1 40%float "withdrawal") 1) db_alice env_ok
      = (inr tx, db') /\
    lookup_account db' 1 = Some (Account.mk 1 1 (Some 60%float)) /\
    transactions db' = transactions db_alice ++ [tx] /\
    Transaction.account_id tx = 1 /\
    Transaction.amount tx = 40%float /\
    Transaction.type tx = "withdrawal" /\
    Transaction.timestamp tx = 1700000600 /\
    ~ In (Transaction.id tx) (map Transaction.id (transactions db_alice)).
Proof.
  split; [| split].
  - pose proof (criar_transacao_effect (TransactionCreate.mk 1 10%float "deposit") 1
                  db_alice_null env_ok (Account.mk 1 1 None)
                  eq_refl eq_refl eq_refl (or_introl eq_refl)) as [Hnull _].
    apply Hnull. reflexivity.
  - pose proof (criar_transacao_effect (TransactionCreate.mk 1 40%float "withdrawal") 1
                  db_alice (mkEnv 1700000600 [false] "") (Account.mk 1 1 (Some 100%float))
                  eq_refl eq_refl eq_refl (or_intror eq_refl)) as [_ Hnumber].
    destruct (Hnumber 100%float eq_refl (fun _ => eq_refl)) as [Hrefused _].
    apply Hrefused. reflexivity.
  - pose proof (criar_transacao_effect (TransactionCreate.mk 1 40%float "withdrawal") 1
                  db_alice env_ok (Account.mk 1 1 (Some 100%float))
                  eq_refl eq_refl eq_refl (or_intror eq_refl)) as [_ Hnumber].
    destruct (Hnumber 100%float eq_refl (fun _ => eq_refl)) as [_ Haccepted].
    apply Haccepted. reflexivity.
Defined.

(** C2 as stated fails. alice deposits infinity into her new account and
    withdraws infinity: both requests are accepted and leave the balance
    column NULL. Her next deposit of 10.0 meets the five preconditions (the
    account exists, she owns it, 10.0 is above zero, the kind is deposit,
    and nothing is asked of a deposit's funds), yet it dies with TypeError;
    no balance is increased and no row is appended. The same deposit on a
    balance of 100.0 changes nothing either when the engine refuses the
    commit. *)
Lemma criar_transacao_effect_not_total :
  map snd (history db_opened
             [request 1 infinity "deposit" 1; request 1 infinity "withdrawal" 1])
  = [mkDB (users db_opened) [Account.mk 1 1 (Some infinity)]
       [Transaction.mk 1 1 infinity "deposit" 1700000600];
     db_alice_null] /\
  lookup_account db_alice_null 1 = Some (Account.mk 1 1 None) /\
  (0 <? 10)%float = true /\
  run (criar_transacao (TransactionCreate.mk 1 10%float "deposit") 1) db_alice_null env_ok
  = (inl TypeError, db_alice_null) /\
  lookup_account db_alice 1 = Some (Account.mk 1 1 (Some 100%float)) /\
  run (criar_transacao (TransactionCreate.mk 1 10%float "deposit") 1)
      db_alice (mkEnv 1700000600 [false] "")
  = (inl OperationalError, db_alice).
Proof. repeat split. Qed.

(** Both writes or neither: when the engine refuses the commit the request
    dies with an exception and the tables are as before. *)
Lemma criar_transacao_refused_commit (t : TransactionCreate.t) (u : Z) (db : DB)
    (env : Env) :
  commit_accepted env = false ->
  exists e, run (criar_transacao t u) db env = (inl e, db).
Proof.
  intros Hcommit. rewrite criar_transacao_run, Hcommit.
  destruct (lookup_account db _) as [conta |]; [| destruct (in_int64 _); eauto].
  destruct (negb _); [eauto |].
  destruct (_ <=? _)%float; [eauto |].
  destruct (negb _); [eauto |].
  destruct (Account.balance conta) as [b |]; [| eauto].
  destruct (_ && _); eauto.
Qed.

(** * PostTransaction: the order of the checks *)

(** C3, as the code has it. A request naming an account that does not
    exist, under an id that fits 64 bits, fails with [Unauthorized] (403),
    the failure of the ownership check: existence and ownership are one
    test, made before the amount, the kind and the funds are looked at.
    Under an id outside 64 bits the lookup itself dies with OverflowError.
    Either way the tables are untouched. And whatever the request and the
    tables, no failure of the handler is [AccountNotFound]. *)
Theorem criar_transacao_unknown_account (t : TransactionCreate.t) (u : Z) (db : DB)
    (env : Env) :
  lookup_account db (TransactionCreate.account_id t) = None ->
  (in_int64 (TransactionCreate.account_id t) = true ->
   run (criar_transacao t u) db env = (inl Unauthorized, db)) /\
  (in_int64 (TransactionCreate.account_id t) = false ->
   run (criar_transacao t u) db env = (inl OverflowError, db)) /\
  (forall (t' : TransactionCreate.t) (u' : Z) (db0 db' : DB) (env' : Env)
          (e : Exception),
     run (criar_transacao t' u') db0 env' = (inl e, db') -> ~ AccountNotFound e).
Proof.
  intros Hfind. rewrite criar_transacao_run, Hfind.
  repeat split; try (intros ->; reflexivity).
  intros t' u' db0 db' env' e. apply criar_transacao_never_404.
Qed.

Lemma criar_transacao_unknown_account_witness :
  run (criar_transacao (TransactionCreate.mk 9 40%float "deposit") 1) db_alice env_ok
  = (inl Unauthorized, db_alice) /\
  run (criar_transacao (TransactionCreate.mk (2 ^ 63) 40%float "deposit") 1)
      db_alice env_ok
  = (inl OverflowError, db_alice).
Proof.
  split.
  - pose proof (criar_transacao_unknown_account
                  (TransactionCreate.mk 9 40%float "deposit") 1 db_alice env_ok eq_refl)
      as (Hfits & _ & _).
    apply Hfits. reflexivity.
  - pose proof (criar_transacao_unknown_account
                  (TransactionCreate.mk (2 ^ 63) 40%float "deposit") 1 db_alice env_ok
                  eq_refl)
      as (_ & Hover & _).
    apply Hover. reflexivity.
Defined.

(** C3 as stated fails: with no account 9 in the tables the request is
    answered 403 "Não autorizado", which is not an account-not-found
    failure. *)
Lemma criar_transacao_unknown_account_not_404 :
  lookup_account db_alice 9 = None /\
  exists e,
    fst (run (criar_transacao (TransactionCreate.mk 9 40%float "deposit") 1)
             db_alice env_ok) = inl e /\
    ~ AccountNotFound e.
Proof.
  split; [reflexivity |].
  exists Unauthorized. split; [reflexivity |].
  intros [detail H]. discriminate H.
Qed.

(** C10, as the code has it. A missing account whose id fits 64 bits and
    an account of another user are answered by the very same exception,
    403 "Não autorizado", with the tables untouched: the caller cannot tell
    the two apart. *)
Theorem criar_transacao_same_refusal (t : TransactionCreate.t) (u : Z) (db : DB)
    (env : Env) :
  lookup_account db (TransactionCreate.account_id t) = None /\
  in_int64 (TransactionCreate.account_id t) = true \/
  (exists conta,
     lookup_account db (TransactionCreate.account_id t) = Some conta /\
     Account.user_id conta <> u) ->
  run (criar_transacao t u) db env = (inl (HTTPException 403 "Não autorizado"), db).
Proof.
  intros [[Hfind Hfits] | (conta & Hfind & Hown)]; rewrite criar_transacao_run, Hfind.
  - rewrite Hfits. reflexivity.
  - apply Z.eqb_neq in Hown. rewrite Hown. reflexivity.
Qed.

Lemma criar_transacao_same_refusal_witness :
  run (criar_transacao (TransactionCreate.mk 9 40%float "deposit") 2) db_alice_bob env_ok
  = (inl (HTTPException 403 "Não autorizado"), db_alice_bob)
  /\
  run (criar_transacao (TransactionCreate.mk 1 40%float "deposit") 2) db_alice_bob env_ok
  = (inl (HTTPException 403 "Não autorizado"), db_alice_bob).
Proof.
  split.
  - apply (criar_transacao_same_refusal (TransactionCreate.mk 9 40%float "deposit") 2
             db_alice_bob env_ok).
    left. split; reflexivity.
  - apply (criar_transacao_same_refusal (TransactionCreate.mk 1 40%float "deposit") 2
             db_alice_bob env_ok).
    right. exists (Account.mk 1 1 (Some 100%float)). split; [reflexivity | discriminate].
Defined.

(** C10 as stated fails: bob (user 2) asks for account 2^63, which does
    not exist, and for account 1, which is alice's. The first request dies
    with OverflowError, the second is answered 403 "Não autorizado": the
    two answers differ. *)
Lemma criar_transacao_refusals_differ :
  lookup_account db_alice_bob (2 ^ 63) = None /\
  lookup_account db_alice_bob 1 = Some (Account.mk 1 1 (Some 100%float)) /\
  run (criar_transacao (TransactionCreate.mk (2 ^ 63) 40%float "deposit") 2)
      db_alice_bob env_ok
  = (inl OverflowError, db_alice_bob) /\
  run (criar_transacao (TransactionCreate.mk 1 40%float "deposit") 2) db_alice_bob env_ok
  = (inl Unauthorized, db_alice_bob) /\
  OverflowError <> Unauthorized.
Proof. repeat split. discriminate. Qed.




(** C5. A withdrawal requested by the owner of an existing account, with
    an amount above zero and above the balance the account holds, fails
    with [InsufficientFunds]; balance and ledger are as before. *)
Theorem criar_transacao_insufficient_funds (t : TransactionCreate.t) (u : Z) (db : DB)
    (env : Env) (conta : Account.t) (b : float) :
  lookup_account db (TransactionCreate.account_id t) = Some conta ->
  Account.user_id conta = u ->
  TransactionCreate.type t = "withdrawal" ->
  (0 <? TransactionCreate.amount t)%float = true ->
  Account.balance conta = Some b ->
  (b <? TransactionCreate.amount t)%float = true ->
  run (criar_transacao t u) db env = (inl InsufficientFunds, db).
Proof.
  intros Hfind Hown Hkind Hpos Hbalance Hfunds.
  rewrite criar_transacao_run, Hfind, Hown, Z.eqb_refl.
  rewrite (Binary64.pos_not_le_zero _ Hpos), Hkind, Hbalance, Hfunds. reflexivity.
Qed.

Lemma criar_transacao_insufficient_funds_witness :
  run (criar_transacao (TransactionCreate.mk 1 150%float "withdrawal") 1) db_alice env_ok
  = (inl InsufficientFunds, db_alice).
Proof.
  apply (criar_transacao_insufficient_funds
           (TransactionCreate.mk 1 150%float "withdrawal") 1 db_alice env_ok
           (Account.mk 1 1 (Some 100%float)) 100%float); reflexivity.
Defined.

(** * PostTransaction: what a successful request leaves alone *)

(** C9. A successful request on account X leaves the users table as it
    was, keeps every recorded transaction and appends exactly the returned
    one, and keeps every account row in place with its id and owner; the
    rows of accounts other than X are unchanged. *)
Theorem criar_transacao_frame (t : TransactionCreate.t) (u : Z) (db db' : DB)
    (env : Env) (tx : Transaction.t) :
  run (criar_transacao t u) db env = (inr tx, db') ->
  users db' = users db /\
  transactions db' = transactions db ++ [tx] /\
  Forall2 (fun a a' =>
             Account.id a' = Account.id a /\
             Account.user_id a' = Account.user_id a /\
             (Account.id a <> TransactionCreate.account_id t -> a' = a))
          (accounts db) (accounts db').
Proof.
  intros Hrun.
  destruct (criar_transacao_cases t u db env)
    as [[e He] | (conta & b & Hfind & _ & _ & _ & _ & _ & Hok)].
  - rewrite He in Hrun. discriminate Hrun.
  - rewrite Hok in Hrun. injection Hrun as <- <-.
    apply lookup_account_id in Hfind. rewrite <- Hfind.
    repeat split. apply set_balance_frame.
Qed.

Lemma criar_transacao_frame_witness :
  let tx := Transaction.mk 2 1 40%float "withdrawal" 1700000600 in
  let db' :=
    mkDB (users db_alice_bob)
         [Account.mk 1 1 (Some 60%float); Account.mk 2 2 (Some 0%float)]
         (transactions db_alice_bob ++ [tx]) in
  users db' = users db_alice_bob /\
  transactions db' = transactions db_alice_bob ++ [tx] /\
  Forall2 (fun a a' =>
             Account.id a' = Account.id a /\
             Account.user_id a' = Account.user_id a /\
             (Account.id a <> 1 -> a' = a))
          (accounts db_alice_bob) (accounts db').
Proof.
  intros tx db'.
  apply (criar_transacao_frame (TransactionCreate.mk 1 40%float "withdrawal") 1
           db_alice_bob db' env_ok tx).
  reflexivity.
Defined.

(** * GetStatement *)

(** C8. A statement asked for a user other than the authenticated caller
    fails with [Unauthorized] before any table is read, whether or not the
    target user exists or owns accounts; no transaction is returned. *)
Theorem extrato_other_user (user_id u : Z) (db : DB) (env : Env) :
  user_id <> u ->
  run (extrato user_id u) db env = (inl Unauthorized, db).
Proof.
  intros Hne. rewrite extrato_run. apply Z.eqb_neq in Hne. rewrite Hne. reflexivity.
Qed.

Lemma extrato_other_user_witness :
  run (extrato 1 2) db_alice_bob env_ok = (inl Unauthorized, db_alice_bob).
Proof. apply (extrato_other_user 1 2 db_alice_bob env_ok). discriminate. Defined.

(** * RegisterUser *)

(** C7. When the username of the request is, byte for byte, the username
    of a registered user, registration fails with [DuplicateUsername] and
    the tables are as before: no user and no account is created. *)
Theorem criar_usuario_duplicate (pwd_context_hash : string -> string -> string)
    (usuario : UsuarioCreate.t) (db : DB) (env : Env) (u : Usuario.t) :
  In u (users db) ->
  Usuario.username u = UsuarioCreate.username usuario ->
  run (criar_usuario pwd_context_hash usuario) db env = (inl DuplicateUsername, db).
Proof.
  intros Hin Hname. rewrite criar_usuario_run.
  destruct (find_In_true
              (fun u => String.eqb (Usuario.username u) (UsuarioCreate.username usuario))
              (users db) u Hin) as [existing Hfind].
  - apply String.eqb_eq, Hname.
  - rewrite Hfind. reflexivity.
Qed.

Lemma criar_usuario_duplicate_witness :
  run (criar_usuario toy_hash (UsuarioCreate.mk "alice" "s3nha"))
      db_alice env_ok
  = (inl DuplicateUsername, db_alice).
Proof.
  apply (criar_usuario_duplicate toy_hash
           (UsuarioCreate.mk "alice" "s3nha") db_alice env_ok
           (Usuario.mk 1 "alice" "$2b$12$N9qo8uLOickgx2ZMRZoMyes3nha")).
  - left. reflexivity.
  - reflexivity.
Defined.

(** The match is exact: a username that differs in case is a new user. *)
Example criar_usuario_case_sensitive :
  fst (run (criar_usuario toy_hash (UsuarioCreate.mk "Alice" "s3nha"))
           db_alice env_ok)
  = inr (Usuario.mk 2 "Alice" "$2b$12$N9qo8uLOickgx2ZMRZoMyes3nha").
Proof. reflexivity. Qed.

(** A registration the engine serves to the end adds one user, with the
    hashed password, and one account of that user with balance 0.0. *)
Lemma criar_usuario_success (pwd_context_hash : string -> string -> string)
    (usuario : UsuarioCreate.t) (db db' : DB) (env : Env) (u : Usuario.t) :
  run (criar_usuario pwd_context_hash usuario) db env = (inr u, db') ->
  Usuario.username u = UsuarioCreate.username usuario /\
  Usuario.password u = pwd_context_hash (salt env) (UsuarioCreate.password usuario) /\
  ~ In (Usuario.id u) (map Usuario.id (users db)) /\
  users db' = users db ++ [u] /\
  transactions db' = transactions db /\
  exists a,
    accounts db' = accounts db ++ [a] /\
    Account.user_id a = Usuario.id u /\
    Account.balance a = Some 0%float /\
    ~ In (Account.id a) (map Account.id (accounts db)).
Proof.
  rewrite criar_usuario_run.
  destruct (find _ (users db)); [discriminate |].
  destruct (has_nul _); [discriminate |].
  cbn zeta.
  destruct (storage env) as [| [|] [| [|] rest]]; try discriminate;
    intros H; injection H as <- <-; cbn;
    (repeat split; [apply next_id_fresh |]);
    (eexists; repeat split; apply next_id_fresh).
Qed.

(** A registration torn in two: the username is free, the password can
    be hashed, the engine accepts the first commit and refuses the second.
    The request fails and the user row is in the tables without an
    account. *)
Lemma criar_usuario_torn (pwd_context_hash : string -> string -> string)
    (usuario : UsuarioCreate.t) (db : DB) (env : Env) (rest : list bool) :
  find (fun u => String.eqb (Usuario.username u) (UsuarioCreate.username usuario))
       (users db) = None ->
  has_nul (UsuarioCreate.password usuario) = false ->
  storage env = true :: false :: rest ->
  run (criar_usuario pwd_context_hash usuario) db env =
  (inl OperationalError,
   mkDB (users db ++
         [Usuario.mk (next_id (map Usuario.id (users db)))
            (UsuarioCreate.username usuario)
            (pwd_context_hash (salt env) (UsuarioCreate.password usuario))])
        (accounts db) (transactions db)).
Proof.
  intros Hfree Hpassword Hstorage.
  rewrite criar_usuario_run, Hfree, Hpassword, Hstorage. reflexivity.
Qed.

(** C4, at the failing input. "alice" registers on empty tables; the
    engine accepts the first commit and refuses the second. The request
    fails, and the tables keep user 1 with no account: the user row was
    committed on its own before the account was created. *)
Theorem criar_usuario_orphan_user (pwd_context_hash : string -> string -> string) :
  paired empty_db = true /\
  run (criar_usuario pwd_context_hash (UsuarioCreate.mk "alice" "s3nha"))
      empty_db (mkEnv 1700000000 [true; false] "N9qo8uLOickgx2ZMRZoMye")
  = (inl OperationalError,
     mkDB [Usuario.mk 1 "alice" (pwd_context_hash "N9qo8uLOickgx2ZMRZoMye" "s3nha")] [] []) /\
  paired (mkDB [Usuario.mk 1 "alice" (pwd_context_hash "N9qo8uLOickgx2ZMRZoMye" "s3nha")] [] []) = false.
Proof. repeat split. Qed.

(** * The balance and the ledger *)

Lemma find_app_fresh (l : list Account.t) (a : Account.t) :
  ~ In (Account.id a) (map Account.id l) ->
  find (fun x => Account.id x =? Account.id a) (l ++ [a]) = Some a.
Proof.
  induction l as [| b l IH]; cbn [app find map In]; intros Hfresh.
  - rewrite Z.eqb_refl. reflexivity.
  - destruct (Account.id b =? Account.id a) eqn:E.
    + exfalso. apply Hfresh. left. lia.
    + apply IH. intros Hin. apply Hfresh. right. exact Hin.
Qed.

Lemma filter_none {A} (f : A -> bool) (l : list A) :
  (forall x, In x l -> f x = false) -> filter f l = [].
Proof.
  induction l as [| a l IH]; cbn [filter]; intros H; [reflexivity |].
  rewrite (H a) by (left; reflexivity). apply IH. intros x Hx. apply H. right. exact Hx.
Qed.

(** A row appended under a fresh key opens an account: nothing in the
    ledger can reference it yet. *)
Lemma fresh_account_just_opened (db : DB) (a : Account.t) (us : list Usuario.t) :
  referenced db ->
  ~ In (Account.id a) (map Account.id (accounts db)) ->
  Account.balance a = Some 0%float ->
  just_opened (mkDB us (accounts db ++ [a]) (transactions db)) (Account.id a).
Proof.
  intros Href Hfresh Hzero. split.
  - exists a. split; [| exact Hzero].
    unfold lookup_account. cbn [accounts]. apply find_app_fresh, Hfresh.
  - unfold ledger. cbn [transactions].
    apply filter_none. intros t Hin.
    apply Z.eqb_neq. intros Heq. apply Hfresh. rewrite <- Heq. apply Href, Hin.
Qed.

Lemma criar_conta_just_opened (u : Z) (db db' : DB) (env : Env) (a : Account.t) :
  referenced db ->
  run (criar_conta u) db env = (inr a, db') ->
  just_opened db' (Account.id a).
Proof.
  intros Href. rewrite criar_conta_run. cbn zeta.
  destruct (negb (in_int64 u)); [discriminate |].
  destruct (commit_accepted env); [| discriminate].
  intros H. injection H as <- <-.
  apply fresh_account_just_opened; [exact Href | apply next_id_fresh | reflexivity].
Qed.

Lemma criar_usuario_just_opened (pwd_context_hash : string -> string -> string)
    (usuario : UsuarioCreate.t) (db db' : DB) (env : Env) (u : Usuario.t) :
  referenced db ->
  run (criar_usuario pwd_context_hash usuario) db env = (inr u, db') ->
  just_opened db' (next_id (map Account.id (accounts db))).
Proof.
  intros Href. rewrite criar_usuario_run.
  destruct (find _ (users db)); [discriminate |].
  destruct (has_nul _); [discriminate |].
  cbn zeta.
  destruct (storage env) as [| [|] [| [|] rest]]; try discriminate;
    intros H; injection H as <- <-;
    match goal with
    | |- just_opened (mkDB _ (_ ++ [?a]) _) _ =>
        apply (fresh_account_just_opened db a);
          [exact Href | apply next_id_fresh | reflexivity]
    end.
Qed.

Lemma just_opened_consistent (db : DB) (X : Z) : just_opened db X -> consistent db X.
Proof.
  intros [(a & Hfind & Hzero) Hledger]. exists a.
  rewrite Hledger, Hzero. repeat split; [exact Hfind |].
  intros b Hb. injection Hb as <-. reflexivity.
Qed.

Lemma running_total_snoc (txs : list Transaction.t) (t : Transaction.t) :
  running_total (txs ++ [t]) =
  (running_total txs + posted_amount (Transaction.type t) (Transaction.amount t))%float.
Proof. unfold running_total. rewrite fold_left_app. reflexivity. Qed.

(** One request, accepted or not, on any account, keeps account [X]
    consistent. *)
Lemma serve_consistent (db : DB) (r : Request) (X : Z) :
  consistent db X -> consistent (snd (serve db r)) X.
Proof.
  intros (a & Hfind & Htotal & Hsign). unfold serve.
  destruct (criar_transacao_cases (body r) (caller r) db (environment r))
    as [[e He] | (conta & b & Hconta & _ & Hamount & _ & Hbalance & Hkind & Hok)].
  - rewrite He. exists a. auto.
  - rewrite Hok. cbn [snd].
    pose proof (lookup_account_id _ _ _ Hconta) as Hid.
    unfold consistent, lookup_account, ledger, posted.
    cbn [accounts transactions].
    rewrite find_set_balance, filter_app. cbn [filter nova_transacao Transaction.account_id].
    fold (lookup_account db X). fold (ledger db X). rewrite Hfind.
    rewrite (Z.eqb_sym (Account.id conta) X).
    destruct (X =? Account.id conta) eqn:EX.
    + assert (a = conta) as -> by (apply Z.eqb_eq in EX; congruence).
      rewrite Hbalance in Htotal. symmetry in Htotal. apply stored_Some in Htotal.
      specialize (Hsign b Hbalance).
      eexists. split; [reflexivity |]. cbn [option_map Account.balance].
      rewrite running_total_snoc. cbn [Transaction.type Transaction.amount].
      unfold balance_after. rewrite Hbalance, Htotal. split; [reflexivity |].
      intros b' Hb'. apply stored_Some in Hb'. subst b'.
      unfold posted_amount.
      destruct Hkind as [Hd | [Hw Hfunds]].
      * rewrite Hd. cbn. apply Binary64.add_not_negative; assumption.
      * rewrite Hw. cbn. apply Binary64.sub_not_negative; assumption.
    + exists a. rewrite app_nil_r. auto.
Qed.

(** C1, as the code has it. From the creation of account X on, after
    every PostTransaction request of any sequence (accepted or refused, on
    X or on another account), the balance column of X holds the running
    total of the ledger of X, each recorded amount added to (deposit) or
    subtracted from (withdrawal) the total in the order of recording with
    binary64 rounding at each step; it holds NULL exactly when that total
    is not a number; and a balance it holds does not compare below zero. *)
Theorem balance_is_running_total (db0 : DB) (X : Z) (rs : list Request) :
  just_opened db0 X ->
  Forall (fun step => consistent (snd step) X) (history db0 rs).
Proof.
  intros Hopen. apply just_opened_consistent in Hopen.
  revert db0 Hopen. induction rs as [| r rs IH]; intros db0 Hinv; cbn [history].
  - constructor.
  - pose proof (serve_consistent db0 r X Hinv) as Hnext.
    constructor; [exact Hnext | apply IH, Hnext].
Qed.

Lemma balance_is_running_total_witness :
  Forall (fun step => consistent (snd step) 1) (history db_opened statement_example).
Proof.
  apply (balance_is_running_total db_opened 1 statement_example).
  split.
  - exists (Account.mk 1 1 (Some 0%float)). split; reflexivity.
  - reflexivity.
Defined.

(** [db_opened] is what the registration of alice leaves on empty tables. *)
Example db_opened_by_registration :
  run (criar_usuario toy_hash (UsuarioCreate.mk "alice" "s3nha"))
      empty_db env_ok
  = (inr (Usuario.mk 1 "alice" "$2b$12$N9qo8uLOickgx2ZMRZoMyes3nha"), db_opened).
Proof. reflexivity. Qed.

(** The example of the specification: deposit 100, a refused withdrawal of
    150, a withdrawal of 40; the balance ends at 60 with two rows in the
    ledger. *)
Example statement_example_run :
  map (fun step => succeeded (fst step)) (history db_opened statement_example)
    = [true; false; true] /\
  map (fun step => option_map Account.balance (lookup_account (snd step) 1))
      (history db_opened statement_example)
    = [Some (Some 100%float); Some (Some 100%float); Some (Some 60%float)] /\
  map (fun step => List.length (ledger (snd step) 1)) (history db_opened statement_example)
    = [1%nat; 1%nat; 2%nat].
Proof. repeat split. Qed.

(** C1 as stated fails. On the account alice opened, a deposit of 1e16
    and two withdrawals of 1.0 are all accepted. Each subtraction of 1.0
    from 1e16 rounds back to 1e16, so the stored balance is 1e16, while the
    deposits minus the withdrawals of the ledger are 1e16 - 2.0 =
    9999999999999998. *)
Lemma balance_not_deposits_minus_withdrawals :
  just_opened db_opened 1 /\
  forallb (fun step => succeeded (fst step)) (history db_opened rounding_example) = true /\
  exists db a,
    last (map snd (history db_opened rounding_example)) db_opened = db /\
    lookup_account db 1 = Some a /\
    Account.balance a = Some 1e16%float /\
    deposits_minus_withdrawals (ledger db 1) = 9999999999999998%float /\
    Account.balance a <> Some (deposits_minus_withdrawals (ledger db 1)).
Proof.
  split; [| split].
  - split; [exists (Account.mk 1 1 (Some 0%float)); split; reflexivity | reflexivity].
  - reflexivity.
  - eexists. exists (Account.mk 1 1 (Some 1e16%float)).
    split; [reflexivity |]. split; [reflexivity |]. split; [reflexivity |].
    split; [reflexivity |].
    intros H.
    apply (f_equal (fun x => match x with
                             | Some y => (y <? 1e16)%float
                             | None => false
                             end)) in H.
    vm_compute in H. discriminate H.
Qed.

(** The same run read in exact arithmetic: the recorded amounts sum to
    9999999999999998 while the stored balance is the integer 10^16. *)
Example rounding_example_exact :
  let db := last (map snd (history db_opened rounding_example)) db_opened in
  exact_total (ledger db 1) = Some 9999999999999998 /\
  option_map (fun a => option_map integer_value (Account.balance a)) (lookup_account db 1)
    = Some (Some (Some (10 ^ 16))).
Proof. vm_compute. split; reflexivity. Qed.

(** * The invariant of the whole service *)

Lemma find_app_found {A} (f : A -> bool) (l l' : list A) (x : A) :
  find f l = Some x -> find f (l ++ l') = Some x.
Proof.
  induction l as [| a l IH]; cbn [app find]; [discriminate |].
  destruct (f a); [auto | exact IH].
Qed.

Lemma map_id_set_balance (conta : Account.t) (b : option float) (l : list Account.t) :
  map Account.id (map (set_balance conta b) l) = map Account.id l.
Proof.
  rewrite map_map. apply map_ext. intros a. apply set_balance_id.
Qed.

Lemma sound_empty : sound empty_db.
Proof. split; [intros t [] | intros X []]. Qed.

(** Appending an account under a fresh key keeps the tables sound. *)
Lemma sound_new_account (db : DB) (a : Account.t) (us : list Usuario.t) :
  sound db ->
  ~ In (Account.id a) (map Account.id (accounts db)) ->
  Account.balance a = Some 0%float ->
  sound (mkDB us (accounts db ++ [a]) (transactions db)).
Proof.
  intros [Href Hcons] Hfresh Hzero. split.
  - intros t Hin. cbn [accounts]. rewrite map_app. apply in_or_app. left.
    apply Href, Hin.
  - intros X. cbn [accounts]. rewrite map_app. intros Hin.
    apply in_app_or in Hin as [Hold | [<- | []]].
    + destruct (Hcons X Hold) as (a0 & Hfind & Htotal & Hsign).
      exists a0. split; [| split; assumption].
      unfold lookup_account. cbn [accounts]. apply find_app_found, Hfind.
    + apply just_opened_consistent, fresh_account_just_opened; assumption.
Qed.

Lemma sound_users (db : DB) (us : list Usuario.t) :
  sound db -> sound (mkDB us (accounts db) (transactions db)).
Proof. intros H. exact H. Qed.

Lemma run_consistent (t : TransactionCreate.t) (u : Z) (db : DB) (env : Env) (X : Z) :
  consistent db X -> consistent (snd (run (criar_transacao t u) db env)) X.
Proof. apply (serve_consistent db (mkRequest t u env) X). Qed.

Lemma handle_sound (pwd_context_hash : string -> string -> string) (db : DB) (c : Call * Env) :
  sound db -> sound (handle pwd_context_hash db c).
Proof.
  intros Hs. destruct c as [[usuario | u | t u | user_id u] env]; unfold handle; cbn [fst snd].
  - rewrite criar_usuario_run.
    destruct (find _ (users db)); [exact Hs |].
    destruct (has_nul _); [exact Hs |]. cbn zeta.
    destruct (storage env) as [| [|] [| [|] rest]]; cbn [snd];
      try exact Hs; try (apply sound_users, Hs);
      (apply sound_new_account; [exact Hs | apply next_id_fresh | reflexivity]).
  - rewrite criar_conta_run. cbn zeta.
    destruct (negb (in_int64 u)); [exact Hs |].
    destruct (commit_accepted env); cbn [snd]; [| exact Hs].
    apply sound_new_account; [exact Hs | apply next_id_fresh | reflexivity].
  - split.
    + destruct Hs as [Href _].
      destruct (criar_transacao_cases t u db env)
        as [[e He] | (conta & b & Hfind & _ & _ & _ & _ & _ & Hok)].
      * rewrite He. exact Href.
      * rewrite Hok. cbn [snd]. intros tx. unfold posted. cbn [transactions accounts].
        rewrite map_id_set_balance. intros Hin.
        apply in_app_or in Hin as [Hold | [<- | []]]; [apply Href, Hold |].
        cbn [nova_transacao Transaction.account_id].
        apply in_map. unfold lookup_account in Hfind.
        apply find_some in Hfind as [Hin _]. exact Hin.
    + intros X HX. apply run_consistent. apply Hs.
      destruct (criar_transacao_cases t u db env)
        as [[e He] | (conta & b & _ & _ & _ & _ & _ & _ & Hok)].
      * rewrite He in HX. exact HX.
      * rewrite Hok in HX. unfold posted in HX. cbn [snd accounts] in HX.
        rewrite map_id_set_balance in HX. exact HX.
  - rewrite extrato_run.
    destruct (negb _); [exact Hs |]. cbn zeta.
    destruct (map Account.id _); [destruct (in_int64 _) |]; exact Hs.
Qed.

(** Whatever requests the service has answered since its tables were
    created, with whatever commits refused, every account's balance column
    holds the running total of its ledger (NULL when that is not a
    number) and a balance it holds does not compare below zero. *)
Lemma reachable_sound (pwd_context_hash : string -> string -> string) (db : DB) :
  reachable pwd_context_hash db -> sound db.
Proof.
  intros [calls <-].
  assert (forall db0, sound db0 -> sound (fold_left (handle pwd_context_hash) calls db0))
    as H.
  { induction calls as [| c calls IH]; intros db0 H0; cbn [fold_left]; [exact H0 |].
    apply IH, handle_sound, H0. }
  apply H, sound_empty.
Qed.

(** * More on PostTransaction *)

(** X1. On an account of the caller and with an amount that is not zero
    or below, a kind other than "deposit" and "withdrawal" is refused with
    400 "Tipo de transação inválido", whatever the balance, and the tables
    are untouched. *)
Theorem criar_transacao_invalid_type (t : TransactionCreate.t) (u : Z) (db : DB)
    (env : Env) (conta : Account.t) :
  lookup_account db (TransactionCreate.account_id t) = Some conta ->
  Account.user_id conta = u ->
  (TransactionCreate.amount t <=? 0)%float = false ->
  TransactionCreate.type t <> "deposit" ->
  TransactionCreate.type t <> "withdrawal" ->
  run (criar_transacao t u) db env = (inl InvalidTransactionType, db).
Proof.
  intros Hfind Hown Hamount Hd Hw.
  rewrite criar_transacao_run, Hfind, Hown, Z.eqb_refl, Hamount.
  cbn [existsb negb].
  apply String.eqb_neq in Hd, Hw. rewrite Hd, Hw. reflexivity.
Qed.

Lemma criar_transacao_invalid_type_witness :
  run (criar_transacao (TransactionCreate.mk 1 500%float "transfer") 1) db_alice env_ok
  = (inl InvalidTransactionType, db_alice).
Proof.
  apply (criar_transacao_invalid_type (TransactionCreate.mk 1 500%float "transfer") 1
           db_alice env_ok (Account.mk 1 1 (Some 100%float)));
    try reflexivity; discriminate.
Defined.

(** X2. A request that fails, for whatever reason (a refused check or a
    refused commit), leaves the three tables exactly as they were: the
    balance is never updated without its transaction row being committed. *)
Theorem criar_transacao_failure_keeps_tables (t : TransactionCreate.t) (u : Z)
    (db db' : DB) (env : Env) (e : Exception) :
  run (criar_transacao t u) db env = (inl e, db') -> db' = db.
Proof.
  intros Hrun.
  destruct (criar_transacao_cases t u db env)
    as [[e' He] | (conta & b & _ & _ & _ & _ & _ & _ & Hok)].
  - rewrite He in Hrun. injection Hrun as _ <-. reflexivity.
  - rewrite Hok in Hrun. discriminate Hrun.
Qed.

Lemma criar_transacao_failure_keeps_tables_witness : db_alice = db_alice.
Proof.
  apply (criar_transacao_failure_keeps_tables
           (TransactionCreate.mk 1 40%float "withdrawal") 1 db_alice db_alice
           (mkEnv 1700000600 [false] "N9qo8uLOickgx2ZMRZoMye") OperationalError).
  reflexivity.
Defined.

(** X3. A transaction is only ever returned for an account that exists
    and belongs to the caller, with an amount that did not compare at or
    below zero, a kind that is "deposit" or "withdrawal", and, for a
    withdrawal, an amount that did not compare above the balance, which
    the account holds; the row returned references that account. *)
Theorem criar_transacao_success_checked (t : TransactionCreate.t) (u : Z)
    (db db' : DB) (env : Env) (tx : Transaction.t) :
  run (criar_transacao t u) db env = (inr tx, db') ->
  exists conta b,
    lookup_account db (TransactionCreate.account_id t) = Some conta /\
    Account.user_id conta = u /\
    Transaction.account_id tx = Account.id conta /\
    valid_transaction tx /\
    Account.balance conta = Some b /\
    (Transaction.type tx = "withdrawal" ->
     (b <? Transaction.amount tx)%float = false).
Proof.
  intros Hrun.
  destruct (criar_transacao_cases t u db env)
    as [[e He] | (conta & b & Hfind & Hown & Hamount & _ & Hbalance & Hkind & Hok)].
  - rewrite He in Hrun. discriminate Hrun.
  - rewrite Hok in Hrun. injection Hrun as <- <-.
    exists conta, b. unfold valid_transaction. cbn.
    repeat split; auto.
    + destruct Hkind as [Hd | [Hw _]]; auto.
    + intros Hw. destruct Hkind as [Hd | [_ Hfunds]]; [congruence | exact Hfunds].
Qed.

Lemma criar_transacao_success_checked_witness :
  exists conta b,
    lookup_account db_alice 1 = Some conta /\
    Account.user_id conta = 1 /\
    Transaction.account_id (Transaction.mk 2 1 40%float "withdrawal" 1700000600)
      = Account.id conta /\
    valid_transaction (Transaction.mk 2 1 40%float "withdrawal" 1700000600) /\
    Account.balance conta = Some b /\
    (Transaction.type (Transaction.mk 2 1 40%float "withdrawal" 1700000600) = "withdrawal" ->
     (b <? Transaction.amount (Transaction.mk 2 1 40%float "withdrawal" 1700000600))%float
     = false).
Proof.
  apply (criar_transacao_success_checked (TransactionCreate.mk 1 40%float "withdrawal") 1
           db_alice
           (mkDB (users db_alice) [Account.mk 1 1 (Some 60%float)]
              (transactions db_alice ++
               [Transaction.mk 2 1 40%float "withdrawal" 1700000600]))
           env_ok).
  reflexivity.
Defined.

(** * The commits behind the requests *)

Lemma commit_steps_trans (a b c : DB) :
  commit_steps a b -> commit_steps b c -> commit_steps a c.
Proof.
  intros Hab Hbc. induction Hbc as [| mid c' _ IH Hstep]; [exact Hab |].
  exact (steps_more a mid c' IH Hstep).
Qed.

Lemma commit_steps_one (a b : DB) : commit_step a b -> commit_steps a b.
Proof. intros H. exact (steps_more a a b (steps_none a) H). Qed.

(** Every request is a sequence of accepted commits. *)
Lemma handle_commits (pwd_context_hash : string -> string -> string) (db : DB)
    (c : Call * Env) :
  commit_steps db (handle pwd_context_hash db c).
Proof.
  destruct c as [[usuario | u | t u | user_id u] env]; unfold handle; cbn [fst snd].
  - rewrite criar_usuario_run.
    destruct (find _ (users db)) eqn:Hfree; [constructor |].
    destruct (has_nul _); [constructor |]. cbn zeta.
    pose proof (step_user db (UsuarioCreate.username usuario)
                  (pwd_context_hash (salt env) (UsuarioCreate.password usuario)) Hfree)
      as Huser.
    assert (commit_steps db
              (mkDB (users db ++
                     [Usuario.mk (next_id (map Usuario.id (users db)))
                        (UsuarioCreate.username usuario)
                        (pwd_context_hash (salt env) (UsuarioCreate.password usuario))])
                    (accounts db ++
                     [Account.mk (next_id (map Account.id (accounts db)))
                        (next_id (map Usuario.id (users db))) (Some 0%float)])
                    (transactions db))) as Hboth.
    { eapply steps_more; [apply commit_steps_one, Huser |].
      apply (step_account (mkDB _ (accounts db) (transactions db))). }
    destruct (storage env) as [| [|] [| [|] rest]]; cbn [snd];
      first [exact Hboth | apply commit_steps_one, Huser | constructor].
  - rewrite criar_conta_run. cbn zeta.
    destruct (negb (in_int64 u)); [constructor |].
    destruct (commit_accepted env); cbn [snd]; [| constructor].
    apply commit_steps_one, step_account.
  - destruct (criar_transacao_cases t u db env)
      as [[e He] | (conta & b & Hfind & _ & Hamount & _ & _ & Hkind & Hok)].
    + rewrite He. constructor.
    + rewrite Hok. cbn [snd]. apply commit_steps_one.
      apply step_transaction; [exact Hfind | exact Hamount | tauto].
  - rewrite extrato_run.
    destruct (negb _); [constructor |]. cbn zeta.
    destruct (map Account.id _); [destruct (in_int64 _) |]; constructor.
Qed.

(** A fact that holds of empty tables and survives every commit holds in
    every state of the service. *)
Lemma reachable_by_commits (pwd_context_hash : string -> string -> string)
    (P : DB -> Prop) :
  P empty_db ->
  (forall db db', P db -> commit_step db db' -> P db') ->
  forall db, reachable pwd_context_hash db -> P db.
Proof.
  intros Hempty Hstep db [calls <-].
  assert (forall a b, commit_steps a b -> P a -> P b) as Hsteps.
  { intros a b Hab Ha. induction Hab as [| mid b' _ IH Hone]; [exact Ha |].
    exact (Hstep mid b' IH Hone). }
  assert (forall db0, P db0 -> P (fold_left (handle pwd_context_hash) calls db0)) as H.
  { induction calls as [| c calls IH]; intros db0 H0; cbn [fold_left]; [exact H0 |].
    apply IH. exact (Hsteps _ _ (handle_commits pwd_context_hash db0 c) H0). }
  apply H, Hempty.
Qed.

(** * Invariants of the tables *)

Lemma NoDup_snoc {A} (l : list A) (x : A) : NoDup l -> ~ In x l -> NoDup (l ++ [x]).
Proof.
  intros Hl Hx. induction Hl as [| a l Ha Hl IH]; cbn [app].
  - constructor; [intros [] | constructor].
  - constructor.
    + intros Hin. apply in_app_or in Hin as [Hin | [-> | []]]; [exact (Ha Hin) |].
      apply Hx. left. reflexivity.
    + apply IH. intros Hin. apply Hx. right. exact Hin.
Qed.

Lemma find_none_username (username : string) (l : list Usuario.t) :
  find (fun u => String.eqb (Usuario.username u) username) l = None ->
  ~ In username (map Usuario.username l).
Proof.
  intros Hnone Hin. apply in_map_iff in Hin as (u & Hname & Hin).
  pose proof (find_none _ _ Hnone u Hin) as Hneq. cbn beta in Hneq.
  apply String.eqb_neq in Hneq. exact (Hneq Hname).
Qed.

Lemma identity_set_balance (conta : Account.t) (b : option float) (l : list Account.t) :
  map identity (map (set_balance conta b) l) = map identity l.
Proof.
  rewrite map_map. apply map_ext. intros a. unfold identity, set_balance.
  destruct (Account.id a =? Account.id conta); reflexivity.
Qed.

(** Account keys stay distinct under the engine's key rule. *)
Lemma reachable_account_keys (pwd_context_hash : string -> string -> string) (db : DB) :
  reachable pwd_context_hash db -> NoDup (map Account.id (accounts db)).
Proof.
  apply (reachable_by_commits pwd_context_hash
           (fun db => NoDup (map Account.id (accounts db)))).
  - constructor.
  - intros db0 db' Hinv Hstep. destruct Hstep; cbn [accounts].
    + exact Hinv.
    + rewrite map_app. apply NoDup_snoc; [exact Hinv | apply next_id_fresh].
    + unfold posted. cbn [accounts]. rewrite map_id_set_balance. exact Hinv.
Qed.

(** X4. In every state of the service, every row of the ledger has kind
    "deposit" or "withdrawal", an amount that did not compare at or below
    zero, and the id of an account row. *)
Theorem reachable_transactions_valid (pwd_context_hash : string -> string -> string)
    (db : DB) (t : Transaction.t) :
  reachable pwd_context_hash db ->
  In t (transactions db) ->
  valid_transaction t /\
  In (Transaction.account_id t) (map Account.id (accounts db)).
Proof.
  intros Hreach Hin. split.
  - revert t Hin. apply Forall_forall. revert db Hreach.
    apply (reachable_by_commits pwd_context_hash
             (fun db => Forall valid_transaction (transactions db))).
    + constructor.
    + intros db0 db' Hinv Hstep.
      destruct Hstep as [? ? _ | ? | t0 conta env _ Hamount Hkind]; cbn [transactions];
        try exact Hinv.
      unfold posted. cbn [transactions]. apply Forall_app. split; [exact Hinv |].
      constructor; [| constructor]. split; [exact Hkind | exact Hamount].
  - apply reachable_sound in Hreach as [Href _]. apply Href, Hin.
Qed.

Lemma reachable_transactions_valid_witness :
  valid_transaction (Transaction.mk 2 1 40%float "withdrawal" 1700000600) /\
  In (Transaction.account_id (Transaction.mk 2 1 40%float "withdrawal" 1700000600))
     (map Account.id (accounts (fold_left (handle toy_hash) statement_calls empty_db))).
Proof.
  apply (reachable_transactions_valid toy_hash
           (fold_left (handle toy_hash) statement_calls empty_db)
           (Transaction.mk 2 1 40%float "withdrawal" 1700000600)).
  - exists statement_calls. reflexivity.
  - right. left. reflexivity.
Defined.

(** X5. In every state of the service no two users have the same
    username: the lookup that precedes the insert keeps usernames distinct
    over any sequence of requests. *)
Theorem reachable_usernames_distinct (pwd_context_hash : string -> string -> string)
    (db : DB) :
  reachable pwd_context_hash db -> NoDup (map Usuario.username (users db)).
Proof.
  apply (reachable_by_commits pwd_context_hash
           (fun db => NoDup (map Usuario.username (users db)))).
  - constructor.
  - intros db0 db' Hinv Hstep.
    destruct Hstep as [username password Hfree | ? | ? ? ? _ _ _]; cbn [users];
      try exact Hinv.
    rewrite map_app. apply NoDup_snoc; [exact Hinv |].
    apply find_none_username, Hfree.
Qed.

Lemma reachable_usernames_distinct_witness :
  NoDup (map Usuario.username
           (users (fold_left (handle toy_hash) two_registrations empty_db))).
Proof.
  apply (reachable_usernames_distinct toy_hash
           (fold_left (handle toy_hash) two_registrations empty_db)).
  exists two_registrations. reflexivity.
Defined.

(** ** Nothing is deleted, renumbered or given to another user *)

Lemma extends_refl (db : DB) : extends db db.
Proof. exists [], [], []. rewrite !app_nil_r. repeat split. Qed.

Lemma extends_trans (a b c : DB) : extends a b -> extends b c -> extends a c.
Proof.
  intros (us & acs & txs & Hu & Ha & Ht) (us' & acs' & txs' & Hu' & Ha' & Ht').
  exists (us ++ us'), (acs ++ acs'), (txs ++ txs').
  rewrite Hu', Ha', Ht', Hu, Ha, Ht, !app_assoc. repeat split.
Qed.

Lemma commit_step_extends (db db' : DB) : commit_step db db' -> extends db db'.
Proof.
  intros Hstep. destruct Hstep as [username password _ | user_id | t conta env _ _ _].
  - eexists [_], [], []. cbn [users accounts transactions].
    rewrite !app_nil_r. repeat split.
  - eexists [], [_], []. cbn [users accounts transactions].
    rewrite map_app, !app_nil_r. repeat split.
  - eexists [], [], [_]. unfold posted. cbn [users accounts transactions].
    rewrite identity_set_balance, !app_nil_r. repeat split.
Qed.

Lemma commit_steps_extends (db db' : DB) : commit_steps db db' -> extends db db'.
Proof.
  intros Hsteps. induction Hsteps as [| mid db' _ IH Hstep]; [apply extends_refl |].
  exact (extends_trans _ _ _ IH (commit_step_extends _ _ Hstep)).
Qed.

(** X6. Whatever requests are served, in whatever order and with whatever
    commits refused, the tables only grow: the users and the transactions
    recorded before are still there, unchanged and in place, with the new
    ones after them, and every account row is still there under the same
    id and the same owner. No request deletes, renumbers or re-owns. *)
Theorem requests_only_append (pwd_context_hash : string -> string -> string)
    (calls : list (Call * Env)) (db : DB) :
  extends db (fold_left (handle pwd_context_hash) calls db).
Proof.
  revert db. induction calls as [| c calls IH]; intros db; cbn [fold_left].
  - apply extends_refl.
  - apply (extends_trans _ (handle pwd_context_hash db c)); [| apply IH].
    apply commit_steps_extends, handle_commits.
Qed.

(** * GetStatement *)

Lemma statement_of_In (db : DB) (u : Z) (t : Transaction.t) :
  In t (statement_of db u) <-> In t (transactions db) /\ on_account_of db u t.
Proof.
  unfold statement_of, on_account_of. rewrite filter_In, existsb_exists.
  split.
  - intros [Hin (X & HX & Heq)]. split; [exact Hin |].
    apply in_map_iff in HX as (a & <- & Ha). apply filter_In in Ha as [Ha Hown].
    exists a. repeat split; [exact Ha | lia | lia].
  - intros [Hin (a & Ha & Hown & Hid)]. split; [exact Hin |].
    exists (Account.id a). split; [| lia].
    apply in_map, filter_In. split; [exact Ha | lia].
Qed.

(** With at least one account, the caller gets the statement. *)
Lemma extrato_answers (db : DB) (u : Z) (env : Env) (a : Account.t) :
  In a (accounts db) -> Account.user_id a = u ->
  run (extrato u u) db env = (inr (statement_of db u), db).
Proof.
  intros Ha Hown. rewrite extrato_run, Z.eqb_refl. cbn [negb]. cbv zeta.
  fold (statement_of db u).
  assert (In (Account.id a)
            (map Account.id (filter (fun a => Account.user_id a =? u) (accounts db))))
    as Hin.
  { apply in_map, filter_In. split; [exact Ha | lia]. }
  destruct (map Account.id _); [destruct Hin | reflexivity].
Qed.

(** X7. When a statement is returned, it was asked by the user for
    themself, the tables are as before, and the statement holds exactly
    the rows of the ledger that are on an account of that user: none is
    missing and none is added. *)
Theorem extrato_lists_own_transactions (user_id u : Z) (db db' : DB) (env : Env)
    (txs : list Transaction.t) :
  run (extrato user_id u) db env = (inr txs, db') ->
  user_id = u /\ db' = db /\
  forall t, In t txs <-> In t (transactions db) /\ on_account_of db u t.
Proof.
  rewrite extrato_run.
  destruct (Z.eqb_spec user_id u) as [-> | Hne]; cbn [negb]; [| discriminate].
  cbv zeta. fold (statement_of db u).
  destruct (map Account.id _); [destruct (in_int64 u); discriminate |].
  intros H. injection H as <- <-.
  split; [reflexivity |]. split; [reflexivity |].
  intros t. apply statement_of_In.
Qed.

Lemma extrato_lists_own_transactions_witness :
  1 = 1 /\ db_alice_bob = db_alice_bob /\
  forall t, In t [Transaction.mk 1 1 100%float "deposit" 1700000000] <->
            In t (transactions db_alice_bob) /\ on_account_of db_alice_bob 1 t.
Proof.
  apply (extrato_lists_own_transactions 1 1 db_alice_bob db_alice_bob env_ok
           [Transaction.mk 1 1 100%float "deposit" 1700000000]).
  reflexivity.
Defined.

(** X8. A user who owns no account (never registered, or registered by a
    request whose second commit was refused) and whose id fits 64 bits gets
    404 "Nenhuma conta encontrada" for their own statement, and the tables
    are untouched. *)
Theorem extrato_without_accounts (u : Z) (db : DB) (env : Env) :
  (forall a, In a (accounts db) -> Account.user_id a <> u) ->
  in_int64 u = true ->
  run (extrato u u) db env = (inl NoAccountsFound, db).
Proof.
  intros Hnone Hfits. rewrite extrato_run, Z.eqb_refl. cbn [negb]. cbv zeta.
  rewrite (filter_none (fun a => Account.user_id a =? u) (accounts db)).
  - cbn [map]. rewrite Hfits. reflexivity.
  - intros a Ha. apply Z.eqb_neq, Hnone, Ha.
Qed.

Lemma extrato_without_accounts_witness :
  run (extrato 1 1) (mkDB [Usuario.mk 1 "alice" (toy_hash "N9qo8uLOickgx2ZMRZoMye" "s3nha")] [] [])
      env_ok
  = (inl NoAccountsFound,
     mkDB [Usuario.mk 1 "alice" (toy_hash "N9qo8uLOickgx2ZMRZoMye" "s3nha")] [] []).
Proof.
  apply (extrato_without_accounts 1
           (mkDB [Usuario.mk 1 "alice" (toy_hash "N9qo8uLOickgx2ZMRZoMye" "s3nha")] [] [])
           env_ok).
  - intros a [].
  - reflexivity.
Defined.

(** X9. A statement request never writes: whatever the ids, the tables
    and the environment, the tables after it are the tables before it. *)
Theorem extrato_reads_only (user_id u : Z) (db : DB) (env : Env) :
  snd (run (extrato user_id u) db env) = db.
Proof.
  rewrite extrato_run. destruct (negb _); [reflexivity |]. cbv zeta.
  destruct (map Account.id _); [destruct (in_int64 _) |]; reflexivity.
Qed.

Lemma NoDup_key_unique (l : list Account.t) (a b : Account.t) :
  NoDup (map Account.id l) -> In a l -> In b l -> Account.id a = Account.id b -> a = b.
Proof.
  induction l as [| c l IH]; cbn [map In]; [contradiction |].
  intros Hnd Ha Hb Hid. inversion Hnd as [| ? ? Hc Hnd']; subst.
  destruct Ha as [-> | Ha], Hb as [-> | Hb].
  - reflexivity.
  - exfalso. apply Hc. rewrite Hid. apply in_map, Hb.
  - exfalso. apply Hc. rewrite <- Hid. apply in_map, Ha.
  - exact (IH Hnd' Ha Hb Hid).
Qed.

(** X10. In every state of the service, a statement holds no transaction
    of an account owned by someone else: every account row a returned
    transaction references belongs to the caller. *)
Theorem extrato_shows_no_foreign_transaction
    (pwd_context_hash : string -> string -> string) (user_id u : Z) (db db' : DB)
    (env : Env) (txs : list Transaction.t) (t : Transaction.t) (a : Account.t) :
  reachable pwd_context_hash db ->
  run (extrato user_id u) db env = (inr txs, db') ->
  In t txs ->
  In a (accounts db) -> Account.id a = Transaction.account_id t ->
  Account.user_id a = u.
Proof.
  intros Hreach Hrun Hin Ha Hid.
  rewrite extrato_run in Hrun.
  destruct (Z.eqb_spec user_id u) as [-> | Hne]; cbn [negb] in Hrun; [| discriminate].
  cbv zeta in Hrun. fold (statement_of db u) in Hrun.
  destruct (map Account.id _); [destruct (in_int64 u); discriminate |].
  injection Hrun as <- <-.
  apply statement_of_In in Hin as [_ (a0 & Ha0 & Hown & Hid0)].
  apply reachable_account_keys in Hreach.
  rewrite (NoDup_key_unique (accounts db) a a0 Hreach Ha Ha0); [exact Hown | congruence].
Qed.

Lemma extrato_shows_no_foreign_transaction_witness :
  Account.user_id (Account.mk 1 1 (Some 60%float)) = 1.
Proof.
  apply (extrato_shows_no_foreign_transaction toy_hash 1 1
           (fold_left (handle toy_hash) statement_calls empty_db)
           (fold_left (handle toy_hash) statement_calls empty_db)
           env_ok
           [Transaction.mk 1 1 100%float "deposit" 1700000600;
            Transaction.mk 2 1 40%float "withdrawal" 1700000600]
           (Transaction.mk 2 1 40%float "withdrawal" 1700000600)
           (Account.mk 1 1 (Some 60%float))).
  - exists statement_calls. reflexivity.
  - reflexivity.
  - right. left. reflexivity.
  - left. reflexivity.
  - reflexivity.
Defined.

(** * Requests that follow one another *)

Lemma set_balance_user_id (conta : Account.t) (b : option float) (a : Account.t) :
  Account.user_id (set_balance conta b a) = Account.user_id a.
Proof. unfold set_balance. destruct (_ =? _); reflexivity. Qed.

Lemma nil_if_no_member {A} (l : list A) : (forall x, ~ In x l) -> l = [].
Proof.
  destruct l as [| a l]; [reflexivity |]. intros H. destruct (H a). left. reflexivity.
Qed.

Lemma fault_free_accepted (env : Env) : fault_free env = true -> commit_accepted env = true.
Proof.
  unfold fault_free, commit_accepted. destruct (storage env) as [| [|] rest]; cbn;
    [reflexivity | reflexivity | discriminate].
Qed.

(** X11. After a transaction was posted, the caller's statement is
    answered (never 404) and holds the returned row, whatever the
    environment of the statement request. *)
Theorem statement_shows_posted (t : TransactionCreate.t) (u : Z) (db db' : DB)
    (env env' : Env) (tx : Transaction.t) :
  run (criar_transacao t u) db env = (inr tx, db') ->
  exists txs, run (extrato u u) db' env' = (inr txs, db') /\ In tx txs.
Proof.
  intros Hrun.
  destruct (criar_transacao_cases t u db env)
    as [[e He] | (conta & b0 & Hfind & Hown & _ & _ & _ & _ & Hok)].
  - rewrite He in Hrun. discriminate Hrun.
  - rewrite Hok in Hrun. injection Hrun as <- <-.
    unfold lookup_account in Hfind. apply find_some in Hfind as [Hin _].
    set (b := balance_after conta t).
    assert (In (set_balance conta b conta) (accounts (posted db t conta env))) as Hrow.
    { unfold posted. cbn [accounts]. apply in_map, Hin. }
    exists (statement_of (posted db t conta env) u). split.
    + apply (extrato_answers _ u env' (set_balance conta b conta) Hrow).
      rewrite set_balance_user_id. exact Hown.
    + apply statement_of_In. split.
      * unfold posted. cbn [transactions]. apply in_or_app. right. left. reflexivity.
      * exists (set_balance conta b conta). split; [exact Hrow |].
        rewrite set_balance_user_id, set_balance_id. split; [exact Hown | reflexivity].
Qed.

Lemma statement_shows_posted_witness :
  exists txs,
    run (extrato 1 1)
        (mkDB (users db_alice) [Account.mk 1 1 (Some 60%float)]
           (transactions db_alice ++ [Transaction.mk 2 1 40%float "withdrawal" 1700000600]))
        env_ok
    = (inr txs,
       mkDB (users db_alice) [Account.mk 1 1 (Some 60%float)]
         (transactions db_alice ++ [Transaction.mk 2 1 40%float "withdrawal" 1700000600]))
    /\ In (Transaction.mk 2 1 40%float "withdrawal" 1700000600) txs.
Proof.
  apply (statement_shows_posted (TransactionCreate.mk 1 40%float "withdrawal") 1 db_alice
           (mkDB (users db_alice) [Account.mk 1 1 (Some 60%float)]
              (transactions db_alice ++
               [Transaction.mk 2 1 40%float "withdrawal" 1700000600]))
           env_ok env_ok (Transaction.mk 2 1 40%float "withdrawal" 1700000600)).
  reflexivity.
Defined.

(** ** OpenAccount *)

(** X12. OpenAccount checks nothing about the user: for any user id
    that fits 64 bits, registered or not and whatever accounts it already
    has, a request whose commit is accepted appends one account row with a
    fresh id, that owner and balance 0.0, returns it, and leaves the users,
    the transactions and the other account rows as they were; the new row
    is then the one found under its id. *)
Theorem criar_conta_opens (u : Z) (db : DB) (env : Env) :
  in_int64 u = true ->
  commit_accepted env = true ->
  exists a,
    run (criar_conta u) db env
      = (inr a, mkDB (users db) (accounts db ++ [a]) (transactions db)) /\
    Account.user_id a = u /\
    Account.balance a = Some 0%float /\
    ~ In (Account.id a) (map Account.id (accounts db)) /\
    lookup_account (mkDB (users db) (accounts db ++ [a]) (transactions db)) (Account.id a)
      = Some a.
Proof.
  intros Hfits Hcommit. rewrite criar_conta_run, Hfits, Hcommit. cbv zeta. cbn [negb].
  eexists. split; [reflexivity |]. cbn [Account.user_id Account.balance Account.id].
  repeat split.
  - apply next_id_fresh.
  - unfold lookup_account. cbn [accounts].
    apply (find_app_fresh (accounts db) (Account.mk _ u (Some 0%float))), next_id_fresh.
Qed.

Lemma criar_conta_opens_witness :
  exists a,
    run (criar_conta 1) db_alice_bob env_ok
      = (inr a, mkDB (users db_alice_bob) (accounts db_alice_bob ++ [a])
                  (transactions db_alice_bob)) /\
    Account.user_id a = 1 /\
    Account.balance a = Some 0%float /\
    ~ In (Account.id a) (map Account.id (accounts db_alice_bob)) /\
    lookup_account
      (mkDB (users db_alice_bob) (accounts db_alice_bob ++ [a]) (transactions db_alice_bob))
      (Account.id a) = Some a.
Proof. apply (criar_conta_opens 1 db_alice_bob env_ok); reflexivity. Defined.

(** X13. The first deposit into an account that was just opened makes
    the balance exactly the deposited amount: when the owner deposits an
    amount above zero and the storage engine accepts the commit, the
    request is accepted and 0.0 + amount is the amount, with no rounding. *)
Theorem first_deposit_is_balance (u : Z) (db db1 : DB) (env env' : Env)
    (a : Account.t) (x : float) :
  run (criar_conta u) db env = (inr a, db1) ->
  (0 <? x)%float = true ->
  commit_accepted env' = true ->
  exists tx db2,
    run (criar_transacao (TransactionCreate.mk (Account.id a) x "deposit") u) db1 env'
      = (inr tx, db2) /\
    lookup_account db2 (Account.id a) = Some (Account.mk (Account.id a) u (Some x)).
Proof.
  intros Hopen Hpos Hcommit.
  pose proof (Binary64.pos_not_le_zero x Hpos) as Hamount.
  pose proof (Binary64.pos_is_number x Hpos) as Hnumber.
  rewrite criar_conta_run in Hopen. cbv zeta in Hopen.
  destruct (negb (in_int64 u)); [discriminate |].
  destruct (commit_accepted env); [| discriminate].
  injection Hopen as <- <-.
  set (a := Account.mk (next_id (map Account.id (accounts db))) u (Some 0%float)).
  set (db1 := mkDB (users db) (accounts db ++ [a]) (transactions db)).
  assert (lookup_account db1 (Account.id a) = Some a) as Hfind.
  { unfold lookup_account, db1. cbn [accounts]. apply find_app_fresh, next_id_fresh. }
  set (t := TransactionCreate.mk (Account.id a) x "deposit").
  exists (nova_transacao db1 t a env'), (posted db1 t a env').
  split.
  - rewrite (criar_transacao_accepted t u db1 env' a 0%float), Hcommit;
      try reflexivity; try assumption.
    cbn [t TransactionCreate.amount]. rewrite Hnumber. reflexivity.
  - unfold lookup_account, posted. cbn [accounts].
    rewrite find_set_balance, Z.eqb_refl.
    fold (lookup_account db1 (Account.id a)). rewrite Hfind.
    cbn. rewrite Binary64.zero_add by exact Hamount.
    rewrite (stored_number x Hnumber). reflexivity.
Qed.

Lemma first_deposit_is_balance_witness :
  exists tx db2,
    run (criar_transacao (TransactionCreate.mk 3 250%float "deposit") 2)
        (mkDB (users db_alice_bob)
           (accounts db_alice_bob ++ [Account.mk 3 2 (Some 0%float)])
           (transactions db_alice_bob))
        env_ok
      = (inr tx, db2) /\
    lookup_account db2 3 = Some (Account.mk 3 2 (Some 250%float)).
Proof.
  apply (first_deposit_is_balance 2 db_alice_bob
           (mkDB (users db_alice_bob)
              (accounts db_alice_bob ++ [Account.mk 3 2 (Some 0%float)])
              (transactions db_alice_bob))
           env_ok env_ok (Account.mk 3 2 (Some 0%float)) 250%float); reflexivity.
Defined.

(** ** RegisterUser *)

Lemma find_app_last_user (username : string) (l : list Usuario.t) (u : Usuario.t) :
  find (fun x => String.eqb (Usuario.username x) username) l = None ->
  Usuario.username u = username ->
  find (fun x => String.eqb (Usuario.username x) username) (l ++ [u]) = Some u.
Proof.
  intros Hnone Hname. induction l as [| a l IH]; cbn [app find] in *.
  - rewrite Hname, String.eqb_refl. reflexivity.
  - destruct (String.eqb (Usuario.username a) username); [discriminate | exact (IH Hnone)].
Qed.

(** The outcome of a registration under a free username, with a password
    that can be hashed, when the engine accepts every commit. *)
Lemma criar_usuario_accepted (pwd_context_hash : string -> string -> string)
    (usuario : UsuarioCreate.t) (db : DB) (env : Env) :
  find (fun u => String.eqb (Usuario.username u) (UsuarioCreate.username usuario))
       (users db) = None ->
  has_nul (UsuarioCreate.password usuario) = false ->
  fault_free env = true ->
  run (criar_usuario pwd_context_hash usuario) db env =
  let u := Usuario.mk (next_id (map Usuario.id (users db)))
             (UsuarioCreate.username usuario)
             (pwd_context_hash (salt env) (UsuarioCreate.password usuario)) in
  let a := Account.mk (next_id (map Account.id (accounts db))) (Usuario.id u)
             (Some 0%float) in
  (inr u, mkDB (users db ++ [u]) (accounts db ++ [a]) (transactions db)).
Proof.
  intros Hfree Hpassword Hok. rewrite criar_usuario_run, Hfree, Hpassword. cbv zeta.
  unfold fault_free in Hok.
  destruct (storage env) as [| [|] [| [|] rest]]; cbn in Hok;
    try discriminate; reflexivity.
Qed.



(** X15. Right after a successful registration the new user's statement
    is answered with the empty list, not with 404: provided every
    transaction references an account row and every account row has its
    owner among the users, nothing in the ledger can be on the new
    account and no older account can be the new user's. *)
Theorem statement_after_registration (pwd_context_hash : string -> string -> string)
    (usuario : UsuarioCreate.t) (db db' : DB) (env env' : Env) (u : Usuario.t) :
  referenced db ->
  (forall a, In a (accounts db) -> In (Account.user_id a) (map Usuario.id (users db))) ->
  run (criar_usuario pwd_context_hash usuario) db env = (inr u, db') ->
  run (extrato (Usuario.id u) (Usuario.id u)) db' env' = (inr [], db').
Proof.
  intros Href Howners. rewrite criar_usuario_run.
  destruct (find _ (users db)); [discriminate |].
  destruct (has_nul _); [discriminate |]. cbv zeta.
  set (usr := Usuario.mk _ _ _). set (a := Account.mk _ _ _).
  assert (forall r : (Exception + Usuario.t) * DB,
            r = (inr usr, mkDB (users db ++ [usr]) (accounts db ++ [a]) (transactions db)) ->
            r = (inr u, db') ->
            run (extrato (Usuario.id u) (Usuario.id u)) db' env' = (inr [], db')) as Hmain.
  { intros r -> H. injection H as <- <-.
    set (db1 := mkDB (users db ++ [usr]) (accounts db ++ [a]) (transactions db)).
    rewrite (extrato_answers db1 (Usuario.id usr) env' a);
      [| unfold db1; cbn [accounts]; apply in_or_app; right; left; reflexivity
       | reflexivity].
    rewrite (nil_if_no_member (statement_of db1 (Usuario.id usr))); [reflexivity |].
    intros t Hin. apply statement_of_In in Hin as [Hin (a0 & Ha0 & Hown & Hid)].
    unfold db1 in Ha0, Hin. cbn [accounts transactions] in Ha0, Hin.
    apply in_app_or in Ha0 as [Hold | [<- | []]].
    - apply (next_id_fresh (map Usuario.id (users db))).
      change (next_id (map Usuario.id (users db))) with (Usuario.id usr).
      rewrite <- Hown. apply Howners, Hold.
    - apply (next_id_fresh (map Account.id (accounts db))).
      change (next_id (map Account.id (accounts db))) with (Account.id a).
      rewrite Hid. apply Href, Hin. }
  destruct (storage env) as [| [|] [| [|] rest]]; try discriminate;
    apply Hmain; reflexivity.
Qed.

Lemma statement_after_registration_witness :
  run (extrato 3 3)
      (mkDB (users db_alice_bob ++ [Usuario.mk 3 "carol" (toy_hash (salt env_ok) "pa55")])
         (accounts db_alice_bob ++ [Account.mk 3 3 (Some 0%float)])
         (transactions db_alice_bob))
      env_ok
  = (inr [],
     mkDB (users db_alice_bob ++ [Usuario.mk 3 "carol" (toy_hash (salt env_ok) "pa55")])
       (accounts db_alice_bob ++ [Account.mk 3 3 (Some 0%float)])
       (transactions db_alice_bob)).
Proof.
  apply (statement_after_registration toy_hash (UsuarioCreate.mk "carol" "pa55")
           db_alice_bob
           (mkDB (users db_alice_bob ++
                  [Usuario.mk 3 "carol" (toy_hash (salt env_ok) "pa55")])
              (accounts db_alice_bob ++ [Account.mk 3 3 (Some 0%float)])
              (transactions db_alice_bob))
           env_ok env_ok (Usuario.mk 3 "carol" (toy_hash (salt env_ok) "pa55"))).
  - intros t [<- | []]. left. reflexivity.
  - intros a [<- | [<- | []]]; cbn; auto.
  - reflexivity.
Defined.

(** ** Users and their accounts when no commit is refused *)

Lemma has_account_iff (db : DB) (u : Usuario.t) :
  has_account db u = true <->
  exists a, In a (accounts db) /\ Account.user_id a = Usuario.id u.
Proof.
  unfold has_account. rewrite existsb_exists.
  split; intros (a & Ha & H); exists a; (split; [exact Ha | lia]).
Qed.

Lemma handle_keeps_pairs (pwd_context_hash : string -> string -> string) (db : DB)
    (c : Call * Env) :
  fault_free (snd c) = true ->
  forallb (has_account db) (users db) = true ->
  forallb (has_account (handle pwd_context_hash db c))
          (users (handle pwd_context_hash db c)) = true.
Proof.
  intros Hok Hq. rewrite forallb_forall in *.
  destruct c as [[usuario | u | t u | user_id u] env]; unfold handle; cbn [fst snd] in *.
  - destruct (find (fun u => String.eqb (Usuario.username u) (UsuarioCreate.username usuario))
                   (users db)) eqn:Hfree.
    + rewrite criar_usuario_run, Hfree. exact Hq.
    + destruct (has_nul (UsuarioCreate.password usuario)) eqn:Hpassword;
        [rewrite criar_usuario_run, Hfree, Hpassword; exact Hq |].
      rewrite (criar_usuario_accepted pwd_context_hash usuario db env Hfree Hpassword Hok).
      cbv zeta. cbn [snd users]. intros x Hx. apply has_account_iff. cbn [accounts].
      apply in_app_or in Hx as [Hold | [<- | []]].
      * apply Hq, has_account_iff in Hold as (a & Ha & Hown).
        exists a. split; [apply in_or_app; left; exact Ha | exact Hown].
      * eexists. split; [apply in_or_app; right; left; reflexivity | reflexivity].
  - rewrite criar_conta_run, (fault_free_accepted env Hok). cbv zeta.
    destruct (negb (in_int64 u)); [exact Hq |]. cbn [snd users].
    intros x Hx. apply has_account_iff. cbn [accounts].
    apply Hq, has_account_iff in Hx as (a & Ha & Hown).
    exists a. split; [apply in_or_app; left; exact Ha | exact Hown].
  - destruct (criar_transacao_cases t u db env)
      as [[e He] | (conta & b & _ & _ & _ & _ & _ & _ & Hposted)].
    + rewrite He. exact Hq.
    + rewrite Hposted. cbn [snd]. unfold posted. cbn [users]. intros x Hx.
      apply has_account_iff. cbn [accounts].
      apply Hq, has_account_iff in Hx as (a & Ha & Hown).
      eexists. split; [apply in_map, Ha |]. rewrite set_balance_user_id. exact Hown.
  - rewrite extrato_run. destruct (negb _); [exact Hq |]. cbv zeta.
    destruct (map Account.id _); [destruct (in_int64 _) |]; exact Hq.
Qed.

(** X16. As long as the storage engine refuses no commit, every user in
    the tables owns at least one account, after any sequence of requests
    from empty tables: a user without an account can only come from a
    refused commit. *)
Theorem users_have_accounts_without_faults
    (pwd_context_hash : string -> string -> string) (calls : list (Call * Env)) :
  forallb (fun c => fault_free (snd c)) calls = true ->
  forallb (has_account (fold_left (handle pwd_context_hash) calls empty_db))
          (users (fold_left (handle pwd_context_hash) calls empty_db)) = true.
Proof.
  assert (forall db,
            forallb (has_account db) (users db) = true ->
            forallb (fun c => fault_free (snd c)) calls = true ->
            forallb (has_account (fold_left (handle pwd_context_hash) calls db))
                    (users (fold_left (handle pwd_context_hash) calls db)) = true) as H.
  { induction calls as [| c calls IH]; intros db Hq Hok; cbn [fold_left]; [exact Hq |].
    cbn [forallb] in Hok. apply andb_prop in Hok as [Hc Hrest].
    apply IH; [apply handle_keeps_pairs; assumption | exact Hrest]. }
  apply H. reflexivity.
Qed.

Lemma users_have_accounts_without_faults_witness :
  forallb (has_account (fold_left (handle toy_hash) two_registrations empty_db))
          (users (fold_left (handle toy_hash) two_registrations empty_db)) = true.
Proof.
  apply (users_have_accounts_without_faults toy_hash two_registrations). reflexivity.
Defined.

(** * Authentication *)

Section AuthFacts.

Variable getenv : string -> option string.
Variable jwt_encode : dict -> string -> string -> string.
Variable jwt_decode : string -> string -> list string -> Z -> PyException + dict.
Variable pwd_context_verify : string -> string -> bool.
Variable int_of_str : string -> option Z.

Lemma get_current_user_run (token : string) (db : DB) (env : Env) :
  run (get_current_user getenv jwt_decode int_of_str token) db env =
  match current_user_of getenv jwt_decode int_of_str (utcnow env) token with
  | inr user_id => (inr user_id, db)
  | inl _ => (inl (HTTPException 401 "Token inválido ou expirado"), db)
  end.
Proof.
  unfold run, get_current_user, bind, datetime_now, raise, ret. cbn [clock committed].
  destruct (current_user_of _ _ _ _ _); reflexivity.
Qed.

Lemma login_run (username password : string) (db : DB) (env : Env) :
  run (login getenv jwt_encode pwd_context_verify username password) db env =
  match find (fun u => String.eqb (Usuario.username u) username) (users db) with
  | None => (inl (HTTPException 401 "Usuário ou senha inválidos"), db)
  | Some usuario =>
    if pwd_context_verify password (Usuario.password usuario)
    then (inr (mkTokenResponse
                 (jwt_encode [("sub", PyStr (str (Usuario.id usuario)));
                              ("exp", PyDatetime (utcnow env + 1800000000))]
                    (SECRET_KEY getenv) "HS256")
                 "bearer"), db)
    else (inl (HTTPException 401 "Usuário ou senha inválidos"), db)
  end.
Proof.
  unfold run, login, bind, query, when_raise, raise, ret, verify_password,
    create_access_token, datetime_now.
  cbn [pending committed clock].
  destruct (find _ (users db)) as [usuario |]; [| reflexivity].
  destruct (pwd_context_verify _ _); reflexivity.
Qed.

(** X17. Whatever goes wrong with a token (expired, forged, no "sub",
    a "sub" that is not a number, a "sub" of zero, any error of the
    libraries), the caller is answered the one and the same
    401 "Token inválido ou expirado": the "Token expirado" and
    "Token inválido" raised underneath never reach the caller. *)
Theorem get_current_user_one_failure (token : string) (db db' : DB) (env : Env)
    (e : Exception) :
  run (get_current_user getenv jwt_decode int_of_str token) db env = (inl e, db') ->
  e = HTTPException 401 "Token inválido ou expirado" /\ db' = db.
Proof.
  rewrite get_current_user_run.
  destruct (current_user_of _ _ _ _ _); [| discriminate].
  intros H. injection H as <- <-. split; reflexivity.
Qed.

(** X18. A token authenticates as user [n] exactly when it decodes, the
    integer value of its "sub" is [n], and [n] is not zero: user id 0 can
    never be authenticated, and the "sub" is the only claim looked at. *)
Theorem get_current_user_accepts (token : string) (db : DB) (env : Env) (n : Z) :
  run (get_current_user getenv jwt_decode int_of_str token) db env = (inr n, db)
  <->
  exists payload,
    jwt_decode token (SECRET_KEY getenv) [ALGORITHM] (utcnow env) = inr payload /\
    py_int int_of_str (dict_get payload "sub") = inr n /\
    n <> 0.
Proof.
  rewrite get_current_user_run. unfold current_user_of, decode_access_token.
  split.
  - destruct (jwt_decode _ _ _ _) as [[] | payload]; try discriminate.
    destruct (py_int _ _) as [err | m] eqn:Hsub; [discriminate |].
    destruct (Z.eqb_spec m 0) as [-> | Hm]; [discriminate |].
    intros H. injection H as <-. exists payload.
    split; [reflexivity |]. split; [exact Hsub | exact Hm].
  - intros (payload & -> & -> & Hn). apply Z.eqb_neq in Hn. rewrite Hn. reflexivity.
Qed.

(** X19. A login for a username nobody has and a login with a wrong
    password are refused with the very same 401 "Usuário ou senha
    inválidos", and the tables are untouched: the answer does not tell
    whether the username exists. *)
Theorem login_same_refusal (username password : string) (db : DB) (env : Env) :
  find (fun u => String.eqb (Usuario.username u) username) (users db) = None \/
  (exists usuario,
     find (fun u => String.eqb (Usuario.username u) username) (users db) = Some usuario /\
     pwd_context_verify password (Usuario.password usuario) = false) ->
  run (login getenv jwt_encode pwd_context_verify username password) db env
  = (inl (HTTPException 401 "Usuário ou senha inválidos"), db).
Proof.
  rewrite login_run. intros [-> | (usuario & -> & ->)]; reflexivity.
Qed.

(** X20. Register, then log in: after a successful registration, a login
    with the same username and a password the hasher verifies against the
    stored hash succeeds without touching the tables, and its bearer token
    is the encoding of the payload with "sub" the decimal string of the
    new user's id and "exp" thirty minutes after the login. *)
Theorem login_after_registration (pwd_context_hash : string -> string -> string)
    (usuario : UsuarioCreate.t) (password : string) (db db' : DB) (env env' : Env)
    (u : Usuario.t) :
  run (criar_usuario pwd_context_hash usuario) db env = (inr u, db') ->
  pwd_context_verify password (Usuario.password u) = true ->
  run (login getenv jwt_encode pwd_context_verify (UsuarioCreate.username usuario) password)
      db' env'
  = (inr (mkTokenResponse
            (jwt_encode [("sub", PyStr (str (Usuario.id u)));
                         ("exp", PyDatetime (utcnow env' + timedelta_minutes 30))]
               (SECRET_KEY getenv) "HS256")
            "bearer"), db').
Proof.
  rewrite criar_usuario_run.
  destruct (find _ (users db)) eqn:Hfree; [discriminate |].
  destruct (has_nul _); [discriminate |]. cbv zeta.
  set (usr := Usuario.mk _ _ _).
  assert (forall acs,
            find (fun x => String.eqb (Usuario.username x) (UsuarioCreate.username usuario))
                 (users (mkDB (users db ++ [usr]) acs (transactions db))) = Some usr)
    as Hfound.
  { intros acs. cbn [users]. apply find_app_last_user; [exact Hfree | reflexivity]. }
  destruct (storage env) as [| [|] [| [|] rest]]; try discriminate;
    intros H Hverify; injection H as <- <-;
    rewrite login_run, Hfound, Hverify; reflexivity.
Qed.

(** X21. The token of a login authenticates its user: when decoding the
    token that [login] issued gives back a payload with the same "sub",
    and [int] reads the decimal string of the user's id back as that id,
    then [get_current_user] on that token returns the id of the user who
    logged in, provided the id is not zero. *)
Theorem login_token_authenticates (username password : string) (db db' : DB)
    (env env' : Env) (response : TokenResponse) (usuario : Usuario.t) (payload : dict) :
  run (login getenv jwt_encode pwd_context_verify username password) db env
    = (inr response, db') ->
  find (fun u => String.eqb (Usuario.username u) username) (users db) = Some usuario ->
  jwt_decode
    (jwt_encode [("sub", PyStr (str (Usuario.id usuario)));
                 ("exp", PyDatetime (utcnow env + timedelta_minutes 30))]
       (SECRET_KEY getenv) ALGORITHM)
    (SECRET_KEY getenv) [ALGORITHM] (utcnow env') = inr payload ->
  dict_get payload "sub" = PyStr (str (Usuario.id usuario)) ->
  int_of_str (str (Usuario.id usuario)) = Some (Usuario.id usuario) ->
  Usuario.id usuario <> 0 ->
  run (get_current_user getenv jwt_decode int_of_str (access_token response)) db' env'
  = (inr (Usuario.id usuario), db').
Proof.
  intros Hlogin Hfind Hdecode Hsub Hint Hid.
  rewrite login_run, Hfind in Hlogin.
  destruct (pwd_context_verify _ _); [| discriminate].
  injection Hlogin as <- <-. cbn [access_token].
  rewrite get_current_user_run. unfold current_user_of, decode_access_token.
  change (utcnow env + 1800000000) with (utcnow env + timedelta_minutes 30).
  change "HS256" with ALGORITHM at 1.
  rewrite Hdecode, Hsub. cbn [py_int]. rewrite Hint.
  apply Z.eqb_neq in Hid. rewrite Hid. reflexivity.
Qed.

End AuthFacts.

Lemma get_current_user_one_failure_witness :
  HTTPException 401 "Token inválido ou expirado"
    = HTTPException 401 "Token inválido ou expirado" /\
  db_alice = db_alice.
Proof.
  apply (get_current_user_one_failure toy_getenv toy_jwt_decode toy_int_of_str
           "expired" db_alice db_alice env_ok).
  reflexivity.
Defined.

Lemma login_same_refusal_witness :
  run (login toy_getenv toy_jwt_encode toy_verify "mallory" "s3nha") db_alice env_ok
  = (inl (HTTPException 401 "Usuário ou senha inválidos"), db_alice)
  /\
  run (login toy_getenv toy_jwt_encode toy_verify "alice" "errada") db_alice env_ok
  = (inl (HTTPException 401 "Usuário ou senha inválidos"), db_alice).
Proof.
  split.
  - apply (login_same_refusal toy_getenv toy_jwt_encode toy_verify "mallory" "s3nha"
             db_alice env_ok).
    left. reflexivity.
  - apply (login_same_refusal toy_getenv toy_jwt_encode toy_verify "alice" "errada"
             db_alice env_ok).
    right. eexists. split; reflexivity.
Defined.

Lemma login_after_registration_witness :
  run (login toy_getenv toy_jwt_encode toy_verify "carol" "pa55")
      (mkDB (users db_alice_bob ++ [Usuario.mk 3 "carol" (toy_hash (salt env_ok) "pa55")])
         (accounts db_alice_bob ++ [Account.mk 3 3 (Some 0%float)])
         (transactions db_alice_bob))
      env_ok
  = (inr (mkTokenResponse
            (toy_jwt_encode [("sub", PyStr (str 3));
                             ("exp", PyDatetime (utcnow env_ok + timedelta_minutes 30))]
               (SECRET_KEY toy_getenv) "HS256")
            "bearer"),
     mkDB (users db_alice_bob ++ [Usuario.mk 3 "carol" (toy_hash (salt env_ok) "pa55")])
       (accounts db_alice_bob ++ [Account.mk 3 3 (Some 0%float)])
       (transactions db_alice_bob)).
Proof.
  apply (login_after_registration toy_getenv toy_jwt_encode toy_verify toy_hash
           (UsuarioCreate.mk "carol" "pa55") "pa55" db_alice_bob
           (mkDB (users db_alice_bob ++
                  [Usuario.mk 3 "carol" (toy_hash (salt env_ok) "pa55")])
              (accounts db_alice_bob ++ [Account.mk 3 3 (Some 0%float)])
              (transactions db_alice_bob))
           env_ok env_ok (Usuario.mk 3 "carol" (toy_hash (salt env_ok) "pa55")));
    reflexivity.
Defined.

Lemma login_token_authenticates_witness :
  run (get_current_user toy_getenv toy_jwt_decode toy_int_of_str "1") db_alice env_ok
  = (inr 1, db_alice).
Proof.
  apply (login_token_authenticates toy_getenv toy_jwt_encode toy_jwt_decode toy_verify
           toy_int_of_str "alice" "s3nha" db_alice db_alice env_ok env_ok
           (mkTokenResponse "1" "bearer")
           (Usuario.mk 1 "alice" "$2b$12$N9qo8uLOickgx2ZMRZoMyes3nha")
           [("sub", PyStr "1")]);
    try reflexivity.
  discriminate.
Defined.

(** * The whole balance *)

(** X22. The funds check is strict: the owner may withdraw exactly the
    balance. For a finite balance above zero, a withdrawal of that very
    amount is accepted (when its commit is) and leaves the balance at
    0.0. *)
Theorem withdraw_whole_balance (u : Z) (db : DB) (env : Env) (conta : Account.t)
    (b : float) :
  lookup_account db (Account.id conta) = Some conta ->
  Account.user_id conta = u ->
  Account.balance conta = Some b ->
  (b <=? 0)%float = false ->
  (b <? infinity)%float = true ->
  commit_accepted env = true ->
  exists tx db',
    run (criar_transacao (TransactionCreate.mk (Account.id conta) b "withdrawal") u)
        db env
      = (inr tx, db') /\
    lookup_account db' (Account.id conta)
      = Some (Account.mk (Account.id conta) u (Some 0%float)).
Proof.
  intros Hfind Hown Hbalance Hpos Hfin Hcommit.
  destruct (Binary64.sub_self _ Hpos Hfin) as [Hnot Hzero].
  pose proof (Binary64.lt_is_number _ _ Hfin) as Hnumber.
  set (t := TransactionCreate.mk (Account.id conta) b "withdrawal").
  exists (nova_transacao db t conta env), (posted db t conta env). split.
  - rewrite (criar_transacao_accepted t u db env conta b), Hcommit;
      try reflexivity; try assumption.
    cbn [t TransactionCreate.amount]. rewrite Hnumber. reflexivity.
  - unfold lookup_account, posted. cbn [accounts].
    rewrite find_set_balance, Z.eqb_refl.
    fold (lookup_account db (Account.id conta)). rewrite Hfind.
    unfold balance_after. rewrite Hbalance.
    cbn. rewrite Hzero, Hown. reflexivity.
Qed.

Lemma withdraw_whole_balance_witness :
  exists tx db',
    run (criar_transacao (TransactionCreate.mk 1 100%float "withdrawal") 1) db_alice env_ok
      = (inr tx, db') /\
    lookup_account db' 1 = Some (Account.mk 1 1 (Some 0%float)).
Proof.
  apply (withdraw_whole_balance 1 db_alice env_ok (Account.mk 1 1 (Some 100%float))
           100%float);
    reflexivity.
Defined.
